(** * Baresha-Downloader: the batch download orchestrator of
    [src/youtube_downloader.py], shallowly embedded.

    Layout:
    - [Presets]: the quality/format preset dictionaries and [dict.get].
    - [History]: [add_to_history] / [save_download_history] with file I/O
      that may raise.
    - [Batch]: the UI control handlers ([start_download_batch],
      [pause_download], [resume_download], [cancel_download]) and the worker
      thread [batch_thread] as a small-step machine over one shared
      application state; interleavings are traces of events.
    - [Progress]: [progress_hook] and the aggregate progress values, over [Q].
    - [Fetch]: the metadata pass [fetch_video_info_batch].
    - [Settings]: [load_settings] over a model of JSON values and [dict.update]. *)

From Stdlib Require Import List Ascii String Bool Arith Lia ZArith QArith Sorted.
Import ListNotations.
Local Open Scope string_scope.
Local Open Scope list_scope.
Local Open Scope nat_scope.

(** ** Python-level results: a call returns a value or raises. *)

Inductive Exc :=
| OSError (msg : string)
| TypeError (msg : string)
| ValueError (msg : string)
| AttributeError (msg : string)
| Exception (msg : string).

Inductive PyResult (A : Type) :=
| POk (a : A)
| PRaise (e : Exc).
Arguments POk {A} a.
Arguments PRaise {A} e.

(** ** The dict produced by [get_video_info] (keys read by the batch code;
    [formats] is carried as an opaque list of format ids). *)
Record VideoInfo := mkVideoInfo {
  title : string;
  duration : nat;
  thumbnail : string;
  formats : list string;
  webpage_url : string;
  uploader : string;
  view_count : nat
}.

Module Presets.

(** A Python dict with string keys and string values, in insertion order. *)
Definition sdict := list (string * string).

(** [d.get(k, default)] *)
Fixpoint dict_get (d : sdict) (k : string) (default : string) : string :=
  match d with
  | [] => default
  | (k', v) :: rest => if String.eqb k k' then v else dict_get rest k default
  end.

(** [self.quality_presets] in [YouTubeDownloader.__init__]. *)
Definition quality_presets : sdict :=
  [("4K Ultra HD", "2160p");
   ("2K QHD", "1440p");
   ("1080p Full HD", "1080p");
   ("720p HD", "720p");
   ("480p SD", "480p");
   ("360p", "360p");
   ("Best Quality", "best")].

(** [self.format_presets] in [YouTubeDownloader.__init__]. *)
Definition format_presets : sdict :=
  [("MP4 Video", "mp4");
   ("MP3 Audio", "mp3");
   ("WebM Video", "webm");
   ("M4A Audio", "m4a");
   ("AAC Audio", "aac");
   ("Best Format", "best")].

(** [self.downloader.quality_presets.get(self.quality_var.get(), "best")]
    in [start_download_batch]. *)
Definition label_to_quality (label : string) : string :=
  dict_get quality_presets label "best".

(** [self.downloader.format_presets.get(self.format_var.get(), "mp4")]. *)
Definition label_to_format (label : string) : string :=
  dict_get format_presets label "mp4".

End Presets.

Module History.

(** The dict built by [add_to_history]. *)
Record HistoryEntry := mkEntry {
  h_url : string;
  h_title : string;
  h_quality : string;
  h_format : string;
  h_status : string;
  h_timestamp : string
}.

(** What [open(history_file, 'w')] followed by [json.dump] does on disk. *)
Inductive IoResult :=
| IoOk            (* the file is written *)
| IoOpenFails     (* [open] raises: the file is left as it was *)
| IoWriteFails.   (* [json.dump] raises after [open] truncated the file *)

(** Content of [download_history.json]. *)
Inductive Disk :=
| DiskHistory (l : list HistoryEntry)
| DiskPartial
| DiskMissing.

(** The downloader's history state: the in-memory [self.download_history]
    and the file behind it. *)
Record Store := mkStore {
  download_history : list HistoryEntry;
  disk : Disk
}.

(** The body of the [try] in [save_download_history]: the file after the
    attempt, and the exception it raised, if any. *)
Definition write_history (io : IoResult) (s : Store) : Disk * option Exc :=
  match io with
  | IoOk => (DiskHistory (download_history s), None)
  | IoOpenFails => (disk s, Some (OSError "open"))
  | IoWriteFails => (DiskPartial, Some (OSError "write"))
  end.

(** [save_download_history]: [try: ... except: pass]. *)
Definition save_download_history (io : IoResult) (s : Store) : PyResult Store :=
  match write_history io s with
  | (d, None) => POk (mkStore (download_history s) d)
  | (d, Some _) => POk (mkStore (download_history s) d)   (* except: pass *)
  end.

(** [add_to_history(url, title, quality, format_type, status)]; the
    timestamp is [datetime.datetime.now().isoformat()], passed in. *)
Definition add_to_history (io : IoResult) (s : Store)
    (url title quality format_type status timestamp : string) : PyResult Store :=
  let entry := mkEntry url title quality format_type status timestamp in
  let s1 := mkStore (download_history s ++ [entry]) (disk s) in
  save_download_history io s1.

End History.

Module Batch.
Import Presets History.

(** What the external [download_video] call does for one item. *)
Inductive Outcome :=
| DlOk
| DlRaise (msg : string).

(** Everything the outside world decides during one worker step: the
    download outcome, the clock, and the history-file I/O. *)
Record Env := mkEnv {
  dl : Outcome;
  ts : string;
  io : IoResult
}.

(** Where the worker thread [batch_thread] is:
    - [PInit]: not yet run ([total = len(self.batch_video_info)] pending);
    - [PCheck idx]: at the top of iteration [idx] (the cancel check);
    - [PWait idx]: in [while not self._pause_event.is_set(): time.sleep(0.2)],
      then the glob for partial files of item [idx];
    - [PFlight idx]: inside the [try], [download_video] for item [idx] running;
    - [PCompleted]: the [for] loop ran out of items;
    - [PCanceled]: the [break] after the cancel check;
    - [PDied]: an exception escaped [batch_thread]. *)
Inductive Pc :=
| PInit
| PCheck (idx : nat)
| PWait (idx : nat)
| PFlight (idx : nat)
| PCompleted
| PCanceled
| PDied.

(** One [batch_thread]: the list it enumerates, the [quality] and
    [format_type] of its closure, its program point, and (instrumentation)
    the indices whose download it started, in order. *)
Record Worker := mkWorker {
  w_items : list VideoInfo;
  w_quality : string;
  w_format : string;
  w_pc : Pc;
  w_started : list nat
}.

(** The [YouTubeDownloaderGUI] fields the batch code reads and writes.
    [pause_event]/[cancel_event] are [None] before the first
    [start_download_batch] (no attribute yet), else whether the
    [threading.Event] is set. [download_btn] is whether the download button
    is enabled. *)
Record App := mkApp {
  batch_video_info : list VideoInfo;
  quality_var : string;
  format_var : string;
  pause_event : option bool;
  cancel_event : option bool;
  download_btn : bool;
  workers : list Worker;
  store : Store
}.

Definition set_events (a : App) (p c : option bool) : App :=
  mkApp (batch_video_info a) (quality_var a) (format_var a) p c
        (download_btn a) (workers a) (store a).

Definition set_download_btn (a : App) (b : bool) : App :=
  mkApp (batch_video_info a) (quality_var a) (format_var a) (pause_event a)
        (cancel_event a) b (workers a) (store a).

Definition set_workers (a : App) (ws : list Worker) : App :=
  mkApp (batch_video_info a) (quality_var a) (format_var a) (pause_event a)
        (cancel_event a) (download_btn a) ws (store a).

Definition set_store (a : App) (s : Store) : App :=
  mkApp (batch_video_info a) (quality_var a) (format_var a) (pause_event a)
        (cancel_event a) (download_btn a) (workers a) s.

Definition set_pc (wk : Worker) (pc : Pc) : Worker :=
  mkWorker (w_items wk) (w_quality wk) (w_format wk) pc (w_started wk).

Fixpoint set_nth {A} (l : list A) (n : nat) (x : A) : list A :=
  match l, n with
  | [], _ => []
  | _ :: t, 0 => x :: t
  | y :: t, S m => y :: set_nth t m x
  end.

(** [start_download_batch]. Without [batch_video_info] (the attribute is
    absent or the list empty) it shows an error and returns. Otherwise it
    disables the download button, creates fresh events ([_pause_event]
    set, [_cancel_event] clear) and starts a new [batch_thread]. Nothing
    looks at a thread that may already be running. *)
Definition start_download_batch (a : App) : App :=
  match batch_video_info a with
  | [] => a
  | _ :: _ =>
      let quality := label_to_quality (quality_var a) in
      let format_type := label_to_format (format_var a) in
      mkApp (batch_video_info a) (quality_var a) (format_var a)
            (Some true) (Some false) false
            (workers a ++ [mkWorker [] quality format_type PInit []])
            (store a)
  end.

(** [pause_download]: [if hasattr(self, '_pause_event'): self._pause_event.clear()]. *)
Definition pause_download (a : App) : App :=
  match pause_event a with
  | Some _ => set_events a (Some false) (cancel_event a)
  | None => a
  end.

(** [resume_download]: [self._pause_event.set()]. *)
Definition resume_download (a : App) : App :=
  match pause_event a with
  | Some _ => set_events a (Some true) (cancel_event a)
  | None => a
  end.

(** [cancel_download]: sets [_cancel_event] and re-enables the download
    button. *)
Definition cancel_download (a : App) : App :=
  match cancel_event a with
  | Some _ => set_download_btn (set_events a (pause_event a) (Some true)) true
  | None => a
  end.

(** The [try]/[except Exception] around one item of [batch_thread]:
    [download_video], then [add_to_history(..., "completed")]; on an
    exception, [add_to_history(..., "failed")], whose own exception would
    leave the thread. *)
Definition run_item (env : Env) (s : Store) (info : VideoInfo)
    (quality format_type : string) : PyResult Store :=
  let url := webpage_url info in
  let t := title info in
  let on_failure :=
      add_to_history (io env) s url t quality format_type "failed" (ts env) in
  match dl env with
  | DlOk =>
      match add_to_history (io env) s url t quality format_type "completed" (ts env) with
      | POk s' => POk s'
      | PRaise _ => on_failure
      end
  | DlRaise _ => on_failure
  end.

(** After the [for] loop: the download button is enabled again (the other
    [root.after] calls only touch labels and buttons not modelled). *)
Definition finish (a : App) (wk : Worker) (pc : Pc) : Worker * App :=
  (set_pc wk pc, set_download_btn a true).

(** The path segments pathlib reads from a glob pattern: split at ['/'],
    with empty and ['.'] segments dropped. *)
Fixpoint path_split_from (cur : string) (s : string) : list string :=
  match s with
  | EmptyString => [cur]
  | String c r =>
      if Ascii.eqb c "/" then cur :: path_split_from "" r
      else path_split_from (cur ++ String c "") r
  end.

Definition path_segments (pattern : string) : list string :=
  filter (fun seg => negb (String.eqb seg "" || String.eqb seg "."))
         (path_split_from "" pattern).

Fixpoint has_double_star (s : string) : bool :=
  match s with
  | EmptyString => false
  | String c r =>
      (Ascii.eqb c "*" && match r with String c' _ => Ascii.eqb c' "*" | EmptyString => false end)
      || has_double_star r
  end.

(** [list(Path(self.downloader.download_path).glob(f"{info['title']}.*.part"))]
    in [batch_thread], after the pause loop and outside the [try]: the
    message of the exception pathlib raises on the pattern, if any (POSIX,
    CPython 3.8 to 3.12). A pattern with a root is refused with
    [NotImplementedError], an empty one with [ValueError], and building the
    selectors refuses any segment that contains ['**'] without being
    exactly ['**'] with [ValueError]. Otherwise the call returns the
    matching files, which only decide whether a "Resuming download" line is
    logged. *)
Definition glob_error (t : string) : option string :=
  let pattern := (t ++ ".*.part")%string in
  match pattern with
  | String "/"%char _ => Some "Non-relative patterns are unsupported"
  | _ =>
      let parts := path_segments pattern in
      if match parts with [] => true | _ => false end
      then Some ("Unacceptable pattern: '" ++ pattern ++ "'")%string
      else if existsb (fun seg => negb (String.eqb seg "**") && has_double_star seg) parts
      then Some "Invalid pattern: '**' can only be an entire path component"
      else None
  end.

(** One step of [batch_thread] for worker [wk]. The events are read through
    [self] at every iteration, as the source does. *)
Definition worker_step (env : Env) (a : App) (wk : Worker) : Worker * App :=
  match w_pc wk with
  | PInit =>
      (mkWorker (batch_video_info a) (w_quality wk) (w_format wk) (PCheck 0) (w_started wk), a)
  | PCheck idx =>
      match nth_error (w_items wk) idx with
      | None => finish a wk PCompleted
      | Some _ =>
          match cancel_event a with
          | Some true => finish a wk PCanceled
          | Some false => (set_pc wk (PWait idx), a)
          | None => (set_pc wk PDied, a)
          end
      end
  | PWait idx =>
      match pause_event a with
      | Some true =>
          match nth_error (w_items wk) idx with
          | Some info =>
              match glob_error (title info) with
              | None =>
                  (mkWorker (w_items wk) (w_quality wk) (w_format wk) (PFlight idx)
                            (w_started wk ++ [idx]), a)
              | Some _ => (set_pc wk PDied, a)   (* raised outside the try *)
              end
          | None => (wk, a)
          end
      | Some false => (wk, a)          (* time.sleep(0.2) and test again *)
      | None => (set_pc wk PDied, a)
      end
  | PFlight idx =>
      match nth_error (w_items wk) idx with
      | Some info =>
          match run_item env (store a) info (w_quality wk) (w_format wk) with
          | POk s' => (set_pc wk (PCheck (S idx)), set_store a s')
          | PRaise _ => (set_pc wk PDied, a)
          end
      | None => (wk, a)
      end
  | PCompleted | PCanceled | PDied => (wk, a)
  end.

(** What can happen next: a user action handled on the UI thread (the
    download button when enabled, the [<Control-d>] binding which calls
    [start_download_batch] directly, pause, resume, cancel) or a step of
    worker thread number [w]. *)
Inductive Event :=
| Start
| ClickDownload
| Pause
| Resume
| Cancel
| Work (w : nat) (env : Env).

Definition step (a : App) (e : Event) : App :=
  match e with
  | Start => start_download_batch a
  | ClickDownload => if download_btn a then start_download_batch a else a
  | Pause => pause_download a
  | Resume => resume_download a
  | Cancel => cancel_download a
  | Work w env =>
      match nth_error (workers a) w with
      | Some wk =>
          let (wk', a') := worker_step env a wk in
          set_workers a' (set_nth (workers a') w wk')
      | None => a
      end
  end.

Definition run (a : App) (tr : list Event) : App := fold_left step tr a.

End Batch.

Module Progress.
Local Open Scope Q_scope.












End Progress.

Module Fetch.

(** The worker of [fetch_video_info_batch] ([fetch_thread]): every URL is
    passed to [get_video_info]; a result is appended to
    [self.batch_video_info], an exception is logged and counted. The pair is
    what reaches [update_video_info_batch(errors)]. *)
Definition fetch_thread (get_video_info : string -> PyResult VideoInfo)
    (urls : list string) : list VideoInfo * nat :=
  fold_left
    (fun '(batch_video_info, errors) url =>
       match get_video_info url with
       | POk info => (batch_video_info ++ [info], errors)
       | PRaise _ => (batch_video_info, errors + 1)
       end)
    urls ([], 0).

(** [fetch_video_info_batch] on the already stripped, non-blank lines:
    no URL shows an error and returns; otherwise the pass runs. *)
Definition fetch_video_info_batch (get_video_info : string -> PyResult VideoInfo)
    (urls : list string) : option (list VideoInfo * nat) :=
  match urls with
  | [] => None
  | _ => Some (fetch_thread get_video_info urls)
  end.

(** Per-URL reading of the pass: what one URL contributes. *)
Definition resolved_one (get_video_info : string -> PyResult VideoInfo)
    (url : string) : list VideoInfo :=
  match get_video_info url with
  | POk info => [info]
  | PRaise _ => []
  end.

Definition fails (get_video_info : string -> PyResult VideoInfo) (url : string) : bool :=
  match get_video_info url with
  | POk _ => false
  | PRaise _ => true
  end.

End Fetch.

Module Settings.
Local Set Warnings "-register-all".

(** Values [json.load] produces (numbers as rationals; the non-finite
    constants [NaN] and [Infinity] are not modelled). *)
Inductive JVal :=
| JNull
| JBool (b : bool)
| JNum (q : Q)
| JStr (s : string)
| JArr (l : list JVal)
| JObj (kvs : list (string * JVal)).

(** Dict keys a JSON value can become. [True]/[False] hash and compare as
    [1]/[0], and [1.0] as [1]: they are one numeric key. *)
Inductive Key :=
| KStr (s : string)
| KNum (q : Q)
| KNone.

Definition key_eqb (k1 k2 : Key) : bool :=
  match k1, k2 with
  | KStr a, KStr b => String.eqb a b
  | KNum a, KNum b => Qeq_bool a b
  | KNone, KNone => true
  | _, _ => false
  end.

(** A Python dict, in insertion order. *)
Definition Dict := list (Key * JVal).

(** [d.get(k)] *)
Fixpoint dict_lookup (d : Dict) (k : Key) : option JVal :=
  match d with
  | [] => None
  | (k', v) :: rest => if key_eqb k k' then Some v else dict_lookup rest k
  end.

(** [d[k] = v]: an existing key keeps its place (and its key object). *)
Fixpoint dict_set (d : Dict) (k : Key) (v : JVal) : Dict :=
  match d with
  | [] => [(k, v)]
  | (k', v') :: rest =>
      if key_eqb k k' then (k', v) :: rest else (k', v') :: dict_set rest k v
  end.

(** The dict [json.load] builds for a JSON object: a repeated key keeps
    its first place and its last value. *)
Definition dict_of_object (kvs : list (string * JVal)) : Dict :=
  fold_left (fun d '(k, v) => dict_set d (KStr k) v) kvs [].

Definition key_of (j : JVal) : option Key :=
  match j with
  | JNull => Some KNone
  | JBool b => Some (KNum (if b then 1 else 0)%Q)
  | JNum q => Some (KNum q)
  | JStr s => Some (KStr s)
  | JArr _ | JObj _ => None
  end.

(** One element of a sequence given to [dict.update]: it must iterate to
    exactly two items, the first hashable. A list iterates over its items,
    a string over its characters, a dict over its keys. *)
Definition pair_of (j : JVal) : PyResult (Key * JVal) :=
  match j with
  | JArr [k; v] =>
      match key_of k with
      | Some k' => POk (k', v)
      | None => PRaise (TypeError "unhashable type")
      end
  | JArr _ => PRaise (ValueError "dictionary update sequence element has wrong length")
  | JStr (String c1 (String c2 EmptyString)) =>
      POk (KStr (String c1 EmptyString), JStr (String c2 EmptyString))
  | JStr _ => PRaise (ValueError "dictionary update sequence element has wrong length")
  | JObj kvs =>
      match dict_of_object kvs with
      | [(KStr a, _); (KStr b, _)] => POk (KStr a, JStr b)
      | _ => PRaise (ValueError "dictionary update sequence element has wrong length")
      end
  | JNull | JBool _ | JNum _ =>
      PRaise (TypeError "cannot convert dictionary update sequence element to a sequence")
  end.

Fixpoint update_from_seq (d : Dict) (elems : list JVal) : Dict * option Exc :=
  match elems with
  | [] => (d, None)
  | e :: rest =>
      match pair_of e with
      | POk (k, v) => update_from_seq (dict_set d k v) rest
      | PRaise x => (d, Some x)
      end
  end.

(** [d.update(other)]: the dict afterwards (the update works in place, so
    what it did before raising stays done) and the exception, if any. *)
Definition dict_update (d : Dict) (other : JVal) : Dict * option Exc :=
  match other with
  | JObj kvs => (fold_left (fun d '(k, v) => dict_set d k v) (dict_of_object kvs) d, None)
  | JArr elems => update_from_seq d elems
  | JStr s =>
      update_from_seq d (map (fun c => JStr (String c EmptyString)) (list_ascii_of_string s))
  | JNull | JBool _ | JNum _ => (d, Some (TypeError "object is not iterable"))
  end.

(** [settings.json] as [load_settings] finds it. *)
Inductive SettingsFile :=
| Missing                          (* settings_file.exists() is False *)
| OpenFails (e : Exc)              (* open or read raises *)
| Contents (parsed : option JVal). (* what json.load returns; None: it raises *)

(** [default_settings] in [load_settings]. *)
Definition default_settings (download_path : string) : Dict :=
  [(KStr "theme", JStr "system");
   (KStr "download_path", JStr download_path);
   (KStr "auto_play", JBool false);
   (KStr "default_quality", JStr "Best Quality");
   (KStr "default_format", JStr "MP4 Video");
   (KStr "clipboard_monitoring", JBool true);
   (KStr "speed_limit", JNum 0%Q);
   (KStr "language", JStr "en")].

(** [load_settings]: the bare [except: pass] keeps [default_settings] as
    far as [update] got. *)
Definition load_settings (download_path : string) (f : SettingsFile) : Dict :=
  let default_settings := default_settings download_path in
  match f with
  | Missing => default_settings
  | OpenFails _ => default_settings
  | Contents None => default_settings
  | Contents (Some loaded_settings) => fst (dict_update default_settings loaded_settings)
  end.

Definition default_keys : list string :=
  ["theme"; "download_path"; "auto_play"; "default_quality"; "default_format";
   "clipboard_monitoring"; "speed_limit"; "language"].

End Settings.

(** ** Reading aids for the statements: expected histories and runs. *)
Module BatchSpec.
Import History Batch.

(** An entry recorded for item [info] of a run with selectors [q], [f]. *)
Definition entry_matches (q f : string) (e : HistoryEntry) (info : VideoInfo) : Prop :=
  h_url e = webpage_url info /\ h_title e = title info /\
  h_quality e = q /\ h_format e = f /\
  (h_status e = "completed" \/ h_status e = "failed").

Definition status_of (o : Outcome) : string :=
  match o with
  | DlOk => "completed"
  | DlRaise _ => "failed"
  end.

Definition expected_entry (q f : string) (info : VideoInfo) (env : Env) : HistoryEntry :=
  mkEntry (webpage_url info) (title info) q f (status_of (dl env)) (ts env).

Fixpoint expected_entries (q f : string) (items : list VideoInfo) (envs : list Env)
    : list HistoryEntry :=
  match items, envs with
  | info :: items', env :: envs' => expected_entry q f info env :: expected_entries q f items' envs'
  | _, _ => []
  end.

(** The worker's three steps for one item: cancel check, pause check,
    download. *)
Definition item_events (env : Env) : list Event := [Work 0 env; Work 0 env; Work 0 env].

(** A run left alone: the thread starts, handles every item with its own
    outcome, and leaves the loop. *)
Definition canon_trace (env0 : Env) (envs : list Env) : list Event :=
  Work 0 env0 :: flat_map item_events envs ++ [Work 0 env0].

Definition only_worker0 (tr : list Event) : Prop :=
  Forall (fun e => exists env, e = Work 0 env) tr.

Definition no_restart_or_resume (tr : list Event) : Prop :=
  Forall (fun e => e <> Resume /\ e <> Start /\ e <> ClickDownload) tr.

Definition started_all (a : App) : list (list nat) := map w_started (workers a).

(** Invariant of a lone run with no pause and no cancel. *)
Definition lone_run (items : list VideoInfo) (q f : string) (h0 : list HistoryEntry)
    (a : App) : Prop :=
  batch_video_info a = items /\ pause_event a = Some true /\
  cancel_event a = Some false /\
  exists wk, workers a = [wk] /\ w_quality wk = q /\ w_format wk = f /\
  match w_pc wk with
  | PInit => download_history (store a) = h0
  | PCheck i =>
      w_items wk = items /\ i <= List.length items /\
      exists hs, download_history (store a) = h0 ++ hs /\
                 Forall2 (entry_matches q f) hs (firstn i items)
  | PWait i | PFlight i =>
      w_items wk = items /\ i < List.length items /\
      exists hs, download_history (store a) = h0 ++ hs /\
                 Forall2 (entry_matches q f) hs (firstn i items)
  | PCompleted =>
      exists hs, download_history (store a) = h0 ++ hs /\
                 Forall2 (entry_matches q f) hs items
  | PCanceled | PDied => False
  end.

(** A small concrete setting: two fetched videos, nothing started yet. *)
Definition demo_info (u : string) : VideoInfo :=
  mkVideoInfo ("Title " ++ u) 60 "" [] u "uploader" 0.

Definition demo_app : App :=
  mkApp [demo_info "https://youtu.be/a"; demo_info "https://youtu.be/b"]
        "1080p Full HD" "MP4 Video" None None true [] (mkStore [] DiskMissing).

Definition env_ok : Env := mkEnv DlOk "2026-01-01T00:00:00" IoOk.
Definition env_fail : Env := mkEnv (DlRaise "HTTP Error 403") "2026-01-01T00:01:00" IoOk.

(** Item 0 is downloading; the user pauses; item 0 finishes; the worker
    reaches item 1 and waits in the pause loop; the user cancels. *)
Definition paused_then_canceled : list Event :=
  [Start; Work 0 env_ok; Work 0 env_ok; Work 0 env_ok;
   Pause;
   Work 0 env_ok; Work 0 env_ok;
   Cancel].

(** Item 0 is downloading and the user cancels. *)
Definition canceled_in_flight : list Event :=
  [Start; Work 0 env_ok; Work 0 env_ok; Work 0 env_ok; Cancel].

(** After [paused_then_canceled] the user starts the batch again with the
    download button, which [cancel_download] enabled. *)
Definition restarted_after_cancel : list Event :=
  paused_then_canceled ++ [ClickDownload].

(** The second run, left alone (no pause, resume, cancel or start): the
    first worker wakes from its pause loop on the fresh, set
    [_pause_event] and handles item 1; the second worker handles both
    items and leaves its loop; then the first worker leaves its loop. *)
Definition second_run : list Event :=
  [Work 0 env_ok; Work 0 env_ok] ++
  (Work 1 env_ok :: flat_map (fun env => [Work 1 env; Work 1 env; Work 1 env]) [env_ok; env_ok] ++
   [Work 1 env_ok]) ++
  [Work 0 env_ok].

(** Two fetched videos, the second titled with a leading ['/']. *)
Definition slash_app : App :=
  mkApp [demo_info "https://youtu.be/a";
         mkVideoInfo "/r/videos: best clips of the week" 60 "" [] "https://youtu.be/c" "uploader" 0]
        "1080p Full HD" "MP4 Video" None None true [] (mkStore [] DiskMissing).

(** Item 0 is downloading; the user pauses; item 0 finishes and the worker
    waits in the pause loop at item 1. *)
Definition paused_at_item1 : list Event :=
  [Start; Work 0 env_ok; Work 0 env_ok; Work 0 env_ok;
   Pause;
   Work 0 env_ok; Work 0 env_ok; Work 0 env_ok].

End BatchSpec.

Module ProgressSpec.
Import Progress.
Local Open Scope Q_scope.








End ProgressSpec.

Module Download.
Import Settings.

(** [str(e)] of an exception. *)
Definition exc_msg (e : Exc) : string :=
  match e with
  | OSError m | TypeError m | ValueError m | AttributeError m | Exception m => m
  end.

(** Python truth value of a value read from JSON. *)
Definition truthy (v : JVal) : bool :=
  match v with
  | JNull => false
  | JBool b => b
  | JNum q => negb (Qeq_bool q 0)
  | JStr s => negb (String.eqb s "")
  | JArr l => match l with [] => false | _ => true end
  | JObj kvs => match kvs with [] => false | _ => true end
  end.

(** [v > 0]: numbers and booleans compare, other values raise. *)
Definition gt_zero (v : JVal) : PyResult bool :=
  match v with
  | JBool b => POk b
  | JNum q => POk (negb (Qle_bool q 0))
  | JNull => PRaise (TypeError "'>' not supported between instances of 'NoneType' and 'int'")
  | JStr _ => PRaise (TypeError "'>' not supported between instances of 'str' and 'int'")
  | JArr _ => PRaise (TypeError "'>' not supported between instances of 'list' and 'int'")
  | JObj _ => PRaise (TypeError "'>' not supported between instances of 'dict' and 'int'")
  end.

(** [os.path.join(a, b)] (POSIX) for a relative [b]. *)
Definition path_join (a b : string) : string :=
  if String.eqb a "" then b
  else if String.eqb (substring (String.length a - 1) 1 a) "/" then a ++ b
  else a ++ "/" ++ b.

Record Postprocessor := mkPP {
  pp_key : string;
  pp_codec : string;
  pp_quality : string
}.

(** The [ydl_opts] dict [download_video] hands to [yt_dlp.YoutubeDL]; an
    absent key is [None] / [[]] / [false]. [progress_hooks] is [true] for
    [[progress_callback]] and [false] for [[]]. *)
Record YdlOpts := mkOpts {
  outtmpl : string;
  progress_hooks : bool;
  format : string;
  postprocessors : list Postprocessor;
  ratelimit : option JVal;
  ffmpeg_location : option string;
  continuedl : bool;
  noprogress : bool
}.

Definition set_ratelimit (o : YdlOpts) (v : JVal) : YdlOpts :=
  mkOpts (outtmpl o) (progress_hooks o) (format o) (postprocessors o) (Some v)
         (ffmpeg_location o) (continuedl o) (noprogress o).

Definition set_ffmpeg (o : YdlOpts) (p : string) : YdlOpts :=
  mkOpts (outtmpl o) (progress_hooks o) (format o) (postprocessors o) (ratelimit o)
         (Some p) (continuedl o) (noprogress o).

Definition set_resume (o : YdlOpts) : YdlOpts :=
  mkOpts (outtmpl o) (progress_hooks o) (format o) (postprocessors o) (ratelimit o)
         (ffmpeg_location o) true false.

(** The [format] selector of the video branch. *)
Definition video_format (quality : string) : string :=
  if String.eqb quality "2160p" then
    "bestvideo[height<=2160][ext=mp4]+bestaudio[ext=m4a]/best[height<=2160]/best"
  else if String.eqb quality "1440p" then
    "bestvideo[height<=1440][ext=mp4]+bestaudio[ext=m4a]/best[height<=1440]/best"
  else if String.eqb quality "1080p" then
    "bestvideo[height<=1080][ext=mp4]+bestaudio[ext=m4a]/best[height<=1080]/best"
  else if String.eqb quality "720p" then
    "bestvideo[height<=720][ext=mp4]+bestaudio[ext=m4a]/best[height<=720]/best"
  else if String.eqb quality "480p" then
    "bestvideo[height<=480][ext=mp4]+bestaudio[ext=m4a]/best[height<=480]/best"
  else if String.eqb quality "360p" then
    "bestvideo[height<=360][ext=mp4]+bestaudio[ext=m4a]/best[height<=360]/best"
  else "best".

Definition audio_opts (outtmpl : string) (hook : bool) (codec : string) : YdlOpts :=
  mkOpts outtmpl hook "bestaudio/best" [mkPP "FFmpegExtractAudio" codec "192"]
         None None false false.

(** The body of the [try] in [download_video] up to [yt_dlp.YoutubeDL]:
    [speed_limit] is [self.speed_limit], [ffmpeg_path] is
    [self.ffmpeg_path] ([None] when [find_ffmpeg] found nothing),
    [progress_callback] tells whether a callback was passed. *)
Definition ydl_options (speed_limit : JVal) (ffmpeg_path : option string)
    (output_path quality format_type : string) (progress_callback : bool)
    : PyResult YdlOpts :=
  let tmpl := path_join output_path "%(title)s.%(ext)s" in
  let ydl_opts :=
    if String.eqb format_type "mp3" then audio_opts tmpl progress_callback "mp3"
    else if String.eqb format_type "m4a" then audio_opts tmpl progress_callback "m4a"
    else if String.eqb format_type "aac" then audio_opts tmpl progress_callback "aac"
    else mkOpts tmpl progress_callback (video_format quality) [] None None false false in
  let limited :=
    if truthy speed_limit then
      match gt_zero speed_limit with
      | POk true => POk (set_ratelimit ydl_opts speed_limit)
      | POk false => POk ydl_opts
      | PRaise e => PRaise e
      end
    else POk ydl_opts in
  match limited with
  | PRaise e => PRaise e
  | POk o =>
      let o := match ffmpeg_path with
               | Some p => if String.eqb p "" then o else set_ffmpeg o p
               | None => o
               end in
      POk (set_resume o)
  end.

(** What [ydl.download([url])] does with the options: return or raise. *)
Definition Downloader := string -> YdlOpts -> Batch.Outcome.

(** [download_video]: any exception in the [try] is re-raised as
    [Exception("Download failed: ...")]. *)
Definition download_video (dl : Downloader) (speed_limit : JVal)
    (ffmpeg_path : option string) (url output_path quality format_type : string)
    (progress_callback : bool) : PyResult unit :=
  match ydl_options speed_limit ffmpeg_path output_path quality format_type progress_callback with
  | PRaise e => PRaise (Exception ("Download failed: " ++ exc_msg e))
  | POk o =>
      match dl url o with
      | Batch.DlOk => POk tt
      | Batch.DlRaise m => PRaise (Exception ("Download failed: " ++ m))
      end
  end.

Definition audio_types : list string := ["mp3"; "m4a"; "aac"].

Definition video_heights : list string := ["2160"; "1440"; "1080"; "720"; "480"; "360"].

End Download.

Module Cli.
Import History Settings Download.

(** [load_download_history]: the list stored in the file; a missing file
    gives [[]], and so does a truncated one, on which [json.load] raises
    into the bare [except]. *)
Definition load_download_history (d : Disk) : list HistoryEntry :=
  match d with
  | DiskHistory l => l
  | DiskPartial => []
  | DiskMissing => []
  end.

(** What a fresh [YouTubeDownloader()] and the calls of [run_cli] meet:
    [expanduser("~/Downloads")], the two files, [find_ffmpeg()],
    [get_video_info], [ydl.download], the outcome of writing the history
    file and the timestamp. *)
Record CliEnv := mkCliEnv {
  downloads_dir : string;
  settings_file : SettingsFile;
  history_disk : Disk;
  ffmpeg_path : option string;
  get_video_info : string -> PyResult VideoInfo;
  ydl_download : Downloader;
  history_io : IoResult;
  now : string
}.

Inductive CliResult :=
| CliUsage
| CliExit (code : nat) (s : Store).

(** [sys.argv[i] if len(sys.argv) > i else default] *)
Definition argv_at (argv : list string) (i : nat) (default : string) : string :=
  match nth_error argv i with
  | Some a => a
  | None => default
  end.

(** [YouTubeDownloader().speed_limit]: [self.settings.get('speed_limit', 0)]. *)
Definition speed_limit_of (settings : Dict) : JVal :=
  match dict_lookup settings (KStr "speed_limit") with
  | Some v => v
  | None => JNum 0
  end.

(** [run_cli]: the exit status (0 when it returns, 1 from [sys.exit(1)])
    and the downloader's history state at exit. *)
Definition run_cli (env : CliEnv) (argv : list string) : CliResult :=
  if List.length argv <? 2 then CliUsage else
  let url := argv_at argv 1 "" in
  let output_path := argv_at argv 2 (downloads_dir env) in
  let quality := argv_at argv 3 "best" in
  let format_type := argv_at argv 4 "mp4" in
  let st := mkStore (load_download_history (history_disk env)) (history_disk env) in
  let settings := load_settings (downloads_dir env) (settings_file env) in
  match get_video_info env url with
  | PRaise _ => CliExit 1 st
  | POk video_info =>
      match download_video (ydl_download env) (speed_limit_of settings) (ffmpeg_path env)
              url output_path quality format_type true with
      | PRaise _ => CliExit 1 st
      | POk _ =>
          match add_to_history (history_io env) st url (title video_info) quality format_type
                  "completed" (now env) with
          | POk st' => CliExit 0 st'
          | PRaise _ => CliExit 1 st
          end
      end
  end.

(** The options the usage text of [run_cli] lists. *)
Definition usage_qualities : list string :=
  ["4K Ultra HD"; "2K QHD"; "1080p Full HD"; "720p HD"; "480p SD"; "360p"; "Best Quality"].
Definition usage_formats : list string :=
  ["MP4 Video"; "MP3 Audio"; "WebM Video"; "M4A Audio"; "AAC Audio"; "Best Format"].

(** [int(x)] for a finite float: truncation toward zero. *)
Definition py_int (x : Q) : Z := Z.quot (Qnum x) (Zpos (Qden x)).

(** [apply_speed] in the settings tab, from the value [mbps] of the entry:
    the settings dict afterwards and the new [downloader.speed_limit]. *)
Definition apply_speed (settings : Dict) (mbps : Q) : Dict * JVal :=
  let v := JNum (inject_Z (py_int (mbps * 1024 * 1024)%Q)) in
  (dict_set settings (KStr "speed_limit") v, v).

End Cli.

Module HistoryTab.
Import History.

(** [clear_history], once the dialog was answered ([confirmed]); the
    [refresh_history] that follows only redraws. *)
Definition clear_history (confirmed : bool) (io : IoResult) (s : Store) : PyResult Store :=
  if confirmed then save_download_history io (mkStore [] (disk s)) else POk s.

End HistoryTab.

Module UrlText.

(** Strings are sequences of code points below 256 ([ascii] read as
    Latin-1).  [str.isspace] on that range: 9-13, 28-32, 0x85 and 0xA0. *)
Definition py_isspace (c : ascii) : bool :=
  let n := nat_of_ascii c in
  ((9 <=? n) && (n <=? 13)) || ((28 <=? n) && (n <=? 32)) || (n =? 133) || (n =? 160).

(** The line boundaries of [str.splitlines] on that range:
    \n, \v, \f, \r, \x1c, \x1d, \x1e and \x85. *)
Definition is_linebreak (c : ascii) : bool :=
  let n := nat_of_ascii c in
  ((10 <=? n) && (n <=? 13)) || ((28 <=? n) && (n <=? 30)) || (n =? 133).

(** [str.lstrip()] and [str.rstrip()]; [str.strip()] removes both ends. *)
Fixpoint lstrip (s : string) : string :=
  match s with
  | EmptyString => EmptyString
  | String c r => if py_isspace c then lstrip r else s
  end.

Fixpoint rstrip (s : string) : string :=
  match s with
  | EmptyString => EmptyString
  | String c r =>
      let r' := rstrip r in
      if String.eqb r' "" && py_isspace c then EmptyString else String c r'
  end.

Definition strip (s : string) : string := rstrip (lstrip s).

(** [str.splitlines()]: [cur] is the line being read, [after_cr] says the
    previous character was a \r, so that \r\n is one boundary.  A final
    boundary does not open an empty last line. *)
Fixpoint splitlines_from (s cur : string) (after_cr : bool) : list string :=
  match s with
  | EmptyString => if String.eqb cur "" then [] else [cur]
  | String c r =>
      if after_cr && (nat_of_ascii c =? 10) then splitlines_from r cur false
      else if is_linebreak c then cur :: splitlines_from r "" (nat_of_ascii c =? 13)
      else splitlines_from r (cur ++ String c "")%string false
  end.

Definition splitlines (s : string) : list string := splitlines_from s "" false.

(** [[u.strip() for u in text.splitlines() if u.strip()]], the URL list
    of [update_url_count], [fetch_video_info_batch], [start_download_batch]
    and [start_batch_download]. *)
Definition parse_urls (text : string) : list string :=
  filter (fun u => negb (String.eqb u "")) (map strip (splitlines text)).

(** A Tk [Text] widget: [get("1.0", tk.END)] returns its contents followed
    by the newline Tk keeps at the end; [insert(tk.END, x)] inserts before
    that newline, [insert("1.0", x)] at the start. *)
Definition text_get (contents : string) : string := (contents ++ String "010" "")%string.
Definition insert_end (contents x : string) : string := (contents ++ x)%string.
Definition insert_start (contents x : string) : string := (x ++ contents)%string.

Definition url_list (contents : string) : list string := parse_urls (text_get contents).

(** The [drop] handler of the URL box: [url = event.data.strip()], then
    [insert(tk.END, url + "\n")] when it is not empty. *)
Definition drop (contents data : string) : string :=
  let url := strip data in
  if String.eqb url "" then contents
  else insert_end contents (url ++ String "010" "")%string.

(** [add_selected_to_batch] / [add_all_to_batch]: each URL of the chosen
    rows through [insert(tk.END, url + "\n")]. *)
Definition add_to_batch (contents : string) (urls : list string) : string :=
  fold_left (fun acc url => insert_end acc (url ++ String "010" "")%string) urls contents.

(** The clipboard monitor's insertion, [insert("1.0", url + "\n")]. *)
Definition clipboard_insert (contents url : string) : string :=
  insert_start contents (url ++ String "010" "")%string.

End UrlText.

Module Converter.
Import UrlText.

(** [needle in hay] for strings. *)
Fixpoint contains (needle hay : string) : bool :=
  String.prefix needle hay ||
  match hay with
  | EmptyString => false
  | String _ r => contains needle r
  end.

(** [s.split(sep)] for a non-empty [sep]: [cur] is the piece being read;
    after a match the [skip] remaining characters of [sep] are passed over. *)
Fixpoint split_from (sep s cur : string) (skip : nat) : list string :=
  match s with
  | EmptyString => [cur]
  | String c r =>
      match skip with
      | S k => split_from sep r cur k
      | O => if String.prefix sep s then cur :: split_from sep r "" (String.length sep - 1)
             else split_from sep r (cur ++ String c "")%string 0
      end
  end.

Definition py_split (sep s : string) : list string := split_from sep s "" 0.

(** [l[i]]; [None] is the [IndexError]. *)
Definition py_index (l : list string) (i : nat) : option string := nth_error l i.

(** What [convert_url] shows: an error box, the converted URLs, or an
    exception escaping the Tk callback. *)
Inductive ConvResult :=
| ConvError (msg : string)
| ConvShow (text : string)
| ConvCrash.

(** The [formats] dict, in insertion order. *)
Definition url_formats (video_id : string) : list (string * string) :=
  [("Standard", "https://www.youtube.com/watch?v=" ++ video_id);
   ("Short", "https://youtu.be/" ++ video_id);
   ("Embed", "https://www.youtube.com/embed/" ++ video_id);
   ("Mobile", "https://m.youtube.com/watch?v=" ++ video_id);
   ("Download", "https://www.youtube.com/watch?v=" ++ video_id ++ "&download=1")]%string.

Definition nl : string := String "010" "".

Definition result_text (video_id : string) : string :=
  fold_left (fun acc '(name, u) => acc ++ name ++ ": " ++ u ++ nl)%string
    (url_formats video_id) ("Converted URLs:" ++ nl ++ nl)%string.

(** The video id: [None] when [split(...)[1]] raises, [Some None] when no
    pattern matched. *)
Definition extract_video_id (url : string) : option (option string) :=
  if contains "youtube.com/watch?v=" url then
    match py_index (py_split "v=" url) 1 with
    | None => None
    | Some piece => option_map Some (py_index (py_split "&" piece) 0)
    end
  else if contains "youtu.be/" url then
    match py_index (py_split "youtu.be/" url) 1 with
    | None => None
    | Some piece => option_map Some (py_index (py_split "?" piece) 0)
    end
  else Some None.

Definition convert_url (input : string) : ConvResult :=
  let url := strip input in
  if String.eqb url "" then ConvError "Please enter a YouTube URL"
  else match extract_video_id url with
       | None => ConvCrash
       | Some None => ConvError "Invalid YouTube URL"
       | Some (Some video_id) =>
           if String.eqb video_id "" then ConvError "Invalid YouTube URL"
           else ConvShow (result_text video_id)
       end.

End Converter.

Module Formats.
Import Download.

(** A key of a yt-dlp format dict: absent, present with [None], or a value. *)
Inductive Field (A : Type) :=
| FMissing
| FNone
| FVal (a : A).
Arguments FMissing {A}.
Arguments FNone {A}.
Arguments FVal {A} a.

(** [f.get(key, default)]; [None] is Python's [None]. *)
Definition get_default {A} (f : Field A) (default : A) : option A :=
  match f with
  | FMissing => Some default
  | FNone => None
  | FVal a => Some a
  end.

Record RawFormat := mkRawFormat {
  rf_format_id : Field string;
  rf_height : Field Z;
  rf_width : Field Z;
  rf_ext : Field string;
  rf_filesize : Field Z;
  rf_vcodec : Field string;
  rf_acodec : Field string;
  rf_fps : Field Q
}.

Record FormatInfo := mkFormatInfo {
  fi_format_id : option string;
  fi_height : Z;
  fi_width : option Z;
  fi_ext : string;
  fi_filesize : option Z;
  fi_vcodec : option string;
  fi_acodec : option string;
  fi_fps : option Q;
  fi_description : string
}.

(** [str()] of an int, and of a value that may be [None]. *)
Fixpoint nat_digits (fuel n : nat) (acc : string) : string :=
  match fuel with
  | O => acc
  | S f =>
      let acc' := String (ascii_of_nat (48 + n mod 10)) acc in
      if n <? 10 then acc' else nat_digits f (n / 10) acc'
  end.

Definition z_str (z : Z) : string :=
  if (z <? 0)%Z then ("-" ++ nat_digits (S (Z.to_nat (- z))) (Z.to_nat (- z)) "")%string
  else nat_digits (S (Z.to_nat z)) (Z.to_nat z) "".

Definition opt_str {A} (show : A -> string) (o : option A) : string :=
  match o with None => "None" | Some a => show a end.

(** The [format_info] dict of a format whose [height] is [h] and [ext] is
    [e] (so that [f.get('height', 0)] is [h] and [f.get('ext', '')] is [e]). *)
Definition format_info (f : RawFormat) (h : Z) (e : string) : FormatInfo :=
  let width := get_default (rf_width f) 0%Z in
  let vcodec := get_default (rf_vcodec f) "none" in
  mkFormatInfo (get_default (rf_format_id f) "") h width e
    (get_default (rf_filesize f) 0%Z) vcodec (get_default (rf_acodec f) "none")
    (get_default (rf_fps f) 0%Q)
    (z_str h ++ "p (" ++ opt_str z_str width ++ "x" ++ z_str h ++ ") " ++ e ++ " - " ++
     opt_str (fun s => s) vcodec)%string.

(** [if f.get('height') and f.get('ext')]: both present and truthy. *)
Definition keep (f : RawFormat) : list FormatInfo :=
  match rf_height f, rf_ext f with
  | FVal h, FVal e => if (h =? 0)%Z || String.eqb e "" then [] else [format_info f h e]
  | _, _ => []
  end.

(** [sorted(formats, key=lambda x: x['height'], reverse=True)]: the
    stable sort by decreasing height, formats of equal height keeping
    their order; written as an insertion sort. *)
Fixpoint insert_desc (x : FormatInfo) (l : list FormatInfo) : list FormatInfo :=
  match l with
  | [] => [x]
  | y :: r => if (fi_height y <=? fi_height x)%Z then x :: y :: r else y :: insert_desc x r
  end.

Definition sort_desc (l : list FormatInfo) : list FormatInfo := fold_right insert_desc [] l.

(** [get_available_formats]: [extract_info] gives the [formats] entry of
    the info dict (or raises); every exception is re-raised with the
    prefix [Error getting formats: ]. *)
Definition get_available_formats (extract_info : string -> PyResult (Field (list RawFormat)))
    (url : string) : PyResult (list FormatInfo) :=
  match extract_info url with
  | PRaise e => PRaise (Exception ("Error getting formats: " ++ exc_msg e))
  | POk FMissing => POk (sort_desc [])
  | POk FNone => PRaise (Exception "Error getting formats: 'NoneType' object is not iterable")
  | POk (FVal fs) => POk (sort_desc (flat_map keep fs))
  end.

End Formats.

Module HistoryView.
Import History Converter.

(** [str.lower()] on code points below 256: A-Z and the Latin-1 capitals
    0xC0-0xDE except 0xD7 move up by 32. *)
Definition lower_char (c : ascii) : ascii :=
  let n := nat_of_ascii c in
  if ((65 <=? n) && (n <=? 90)) || ((192 <=? n) && (n <=? 222) && negb (n =? 215))
  then ascii_of_nat (n + 32) else c.

Fixpoint py_lower (s : string) : string :=
  match s with
  | EmptyString => EmptyString
  | String c r => String (lower_char c) (py_lower r)
  end.

Record Row := mkRow {
  row_title : string;
  row_quality : string;
  row_format : string;
  row_status : string;
  row_date : string
}.

(** [entry['title'][:50] + "..." if len(entry['title']) > 50 else entry['title']] *)
Definition display_title (t : string) : string :=
  if 50 <? String.length t then (substring 0 50 t ++ "...")%string else t.

(** [history[-n:]] *)
Definition last_n {A} (n : nat) (l : list A) : list A := skipn (List.length l - n) l.

Definition entry_matches (filter_text : string) (e : HistoryEntry) : bool :=
  contains filter_text (py_lower (h_title e)) || contains filter_text (py_lower (h_status e)) ||
  contains filter_text (h_timestamp e).

(** The loop of [refresh_history]; [iso_date] is
    [datetime.fromisoformat(ts).strftime("%Y-%m-%d %H:%M")], [None] when it
    raises [ValueError], which ends the loop with the rows inserted so far. *)
Fixpoint insert_rows (iso_date : string -> option string) (filter_text : string)
    (entries : list HistoryEntry) : list Row * option Exc :=
  match entries with
  | [] => ([], None)
  | e :: rest =>
      if negb (String.eqb filter_text "") && negb (entry_matches filter_text e)
      then insert_rows iso_date filter_text rest
      else match iso_date (h_timestamp e) with
           | None => ([], Some (ValueError ("Invalid isoformat string: '" ++ h_timestamp e ++ "'")))
           | Some date =>
               let '(rows, ex) := insert_rows iso_date filter_text rest in
               (mkRow (display_title (h_title e)) (h_quality e) (h_format e) (h_status e) date
                  :: rows, ex)
           end
  end.

(** [query.get().lower() if query else '']; [None] is the missing attribute. *)
Definition filter_text_of (query : option string) : string :=
  match query with Some q => py_lower q | None => "" end.

Definition refresh_history (iso_date : string -> option string) (query : option string)
    (history : list HistoryEntry) : list Row * option Exc :=
  insert_rows iso_date (filter_text_of query) (rev (last_n 50 history)).

End HistoryView.

Module BatchTab.
Import Presets History Batch Download.

(** The [root.after(0, lambda: ...)] callbacks of the [batch_thread] of
    [start_batch_download], queued for the Tk main loop. *)
Inductive Callback :=
| CbDownloaded      (* lambda: self.batch_log_message(f"Downloaded: {title}") *)
| CbFailed          (* lambda: self.batch_log_message(f"Failed: {title} ({str(e)})", error=True) *)
| CbEnableButton    (* lambda: self.batch_download_btn.config(state=tk.NORMAL) *)
| CbCompleteLabel.  (* lambda: self.batch_progress_label.config(text="Batch download complete!") *)

(** A line of the batch log, or the [NameError] a callback raised instead. *)
Inductive LogLine :=
| LogInfo (s : string)
| LogError (s : string)
| LogNameError.

(** Where [batch_thread] is: at the top of iteration [idx]; about to call
    [add_to_history] for item [idx] ([failed]: inside the [except]); after
    the loop; or killed by an exception. *)
Inductive BPc :=
| BItem (idx : nat)
| BAdd (idx : nat) (failed : bool)
| BDone
| BDied.

(** The state shared by [batch_thread] and the main loop.  [b_url],
    [b_title] and [b_e] are the variables [url], [title] and [e] of
    [batch_thread]: the lambdas read them when they run, not when they are
    queued.  [b_e] is [None] when [e] is unbound, as at the end of every
    [except ... as e] block. *)
Record BState := mkBState {
  b_items : list VideoInfo;
  b_quality : string;
  b_format : string;
  b_pc : BPc;
  b_url : string;
  b_title : string;
  b_e : option string;
  b_queue : list Callback;
  b_log : list LogLine;
  b_btn : bool;
  b_label : string;
  b_store : Store
}.

Definition set_b_pc (b : BState) (pc : BPc) : BState :=
  mkBState (b_items b) (b_quality b) (b_format b) pc (b_url b) (b_title b) (b_e b)
    (b_queue b) (b_log b) (b_btn b) (b_label b) (b_store b).

(** One statement group of [batch_thread], with [env] giving the outcome
    of [download_video], the clock and the history-file I/O. *)
Definition worker_step (env : Env) (b : BState) : BState :=
  match b_pc b with
  | BItem idx =>
      match nth_error (b_items b) idx with
      | None =>
          mkBState (b_items b) (b_quality b) (b_format b) BDone (b_url b) (b_title b) (b_e b)
            (b_queue b ++ [CbEnableButton; CbCompleteLabel]) (b_log b) (b_btn b) (b_label b)
            (b_store b)
      | Some info =>
          match dl env with
          | DlOk =>
              mkBState (b_items b) (b_quality b) (b_format b) (BAdd idx false)
                (webpage_url info) (title info) (b_e b)
                (b_queue b ++ [CbDownloaded]) (b_log b) (b_btn b) (b_label b) (b_store b)
          | DlRaise m =>
              mkBState (b_items b) (b_quality b) (b_format b) (BAdd idx true)
                (webpage_url info) (title info) (Some m)
                (b_queue b ++ [CbFailed]) (b_log b) (b_btn b) (b_label b) (b_store b)
          end
      end
  | BAdd idx failed =>
      match add_to_history (io env) (b_store b) (b_url b) (b_title b) (b_quality b) (b_format b)
              (if failed then "failed" else "completed") (ts env) with
      | POk s' =>
          mkBState (b_items b) (b_quality b) (b_format b) (BItem (S idx)) (b_url b) (b_title b)
            (if failed then None else b_e b) (b_queue b) (b_log b) (b_btn b) (b_label b) s'
      | PRaise ex =>
          if failed then
            mkBState (b_items b) (b_quality b) (b_format b) BDied (b_url b) (b_title b) None
              (b_queue b) (b_log b) (b_btn b) (b_label b) (b_store b)
          else
            mkBState (b_items b) (b_quality b) (b_format b) (BAdd idx true) (b_url b) (b_title b)
              (Some (exc_msg ex)) (b_queue b ++ [CbFailed]) (b_log b) (b_btn b) (b_label b)
              (b_store b)
      end
  | BDone | BDied => b
  end.

(** The main loop runs the oldest queued callback. *)
Definition main_step (b : BState) : BState :=
  match b_queue b with
  | [] => b
  | cb :: rest =>
      let log' :=
          match cb with
          | CbDownloaded => b_log b ++ [LogInfo ("Downloaded: " ++ b_title b)]
          | CbFailed =>
              match b_e b with
              | Some m => b_log b ++ [LogError ("Failed: " ++ b_title b ++ " (" ++ m ++ ")")]
              | None => b_log b ++ [LogNameError]
              end
          | _ => b_log b
          end in
      mkBState (b_items b) (b_quality b) (b_format b) (b_pc b) (b_url b) (b_title b) (b_e b)
        rest log'
        (match cb with CbEnableButton => true | _ => b_btn b end)
        (match cb with CbCompleteLabel => "Batch download complete!" | _ => b_label b end)
        (b_store b)
  end.

Inductive BEvent :=
| EWorker (env : Env)
| EMain.

Definition bstep (b : BState) (e : BEvent) : BState :=
  match e with
  | EWorker env => worker_step env b
  | EMain => main_step b
  end.

Definition brun (b : BState) (tr : list BEvent) : BState := fold_left bstep tr b.

(** [start_batch_download]: [None] is the "Please fetch video information
    first" error; otherwise the button is disabled and [batch_thread]
    starts on [self.batch_video_info]. *)
Definition start_batch_download (batch_video_info : list VideoInfo)
    (quality_label format_label : string) (s : Store) : option BState :=
  match batch_video_info with
  | [] => None
  | _ :: _ =>
      Some (mkBState batch_video_info (label_to_quality quality_label)
              (label_to_format format_label) (BItem 0) "" "" None [] [] false
              "Starting batch download..." s)
  end.

End BatchTab.

(** * Proofs *)

Module BatchFacts.
Import History Batch BatchSpec.

Lemma add_to_history_ok : forall r s url t q f st tm,
  add_to_history r s url t q f st tm =
  POk (mkStore (download_history s ++ [mkEntry url t q f st tm])
               (fst (write_history r (mkStore (download_history s ++ [mkEntry url t q f st tm])
                                              (disk s))))).
Proof. intros r; destruct r; reflexivity. Qed.

Lemma run_item_ok : forall env s info q f,
  exists d, run_item env s info q f =
            POk (mkStore (download_history s ++ [expected_entry q f info env]) d).
Proof.
  intros [o tm io] s info q f.
  destruct o; destruct io; eexists; reflexivity.
Qed.

Lemma run_app : forall a l1 l2, run a (l1 ++ l2) = run (run a l1) l2.
Proof. intros; unfold run; apply fold_left_app. Qed.

Lemma firstn_S_nth : forall {A} (l : list A) i x,
  nth_error l i = Some x -> firstn (S i) l = firstn i l ++ [x].
Proof.
  intros A l; induction l as [|y l IH]; intros [|i] x H; simpl in *; try discriminate.
  - injection H as ->; reflexivity.
  - rewrite (IH i x H); reflexivity.
Qed.

Lemma expected_entry_matches : forall q f info env,
  entry_matches q f (expected_entry q f info env) info.
Proof.
  intros q f info [o tm r]; unfold entry_matches, expected_entry; simpl.
  repeat split; destruct o; simpl; auto.
Qed.

Lemma lone_run_start : forall a0,
  batch_video_info a0 <> [] -> workers a0 = [] ->
  lone_run (batch_video_info a0) (Presets.label_to_quality (quality_var a0))
           (Presets.label_to_format (format_var a0))
           (download_history (store a0)) (start_download_batch a0).
Proof.
  intros [bvi qv fv pe ce db ws st] Hne Hw; simpl in *; subst ws.
  destruct bvi as [|x xs]; [congruence|].
  unfold lone_run; simpl.
  repeat split; eexists; repeat split; reflexivity.
Qed.

Lemma lone_run_step : forall items q f h0 a env,
  Forall (fun i => glob_error (title i) = None) items ->
  lone_run items q f h0 a -> lone_run items q f h0 (step a (Work 0 env)).
Proof.
  intros items q f h0 a env Hg (Hb & Hp & Hc & wk & Hw & Hq & Hf & Hpc).
  destruct a as [bvi qv fv pe ce db ws st]; simpl in *; subst bvi pe ce ws.
  destruct wk as [its wq wf pc started]; simpl in *; subst wq wf.
  unfold step, worker_step; simpl.
  destruct pc as [| i | i | i | | |]; simpl in *.
  - (* PInit *)
    unfold lone_run; simpl. repeat split; eexists; repeat split; try reflexivity.
    + lia.
    + exists []. rewrite app_nil_r. split; [exact Hpc | constructor].
  - (* PCheck *)
    destruct Hpc as (-> & Hle & hs & Hh & HF).
    destruct (nth_error items i) as [info|] eqn:E; simpl.
    + unfold lone_run; simpl. repeat split; eexists; repeat split; try reflexivity.
      * apply nth_error_Some; congruence.
      * exists hs; split; assumption.
    + unfold lone_run; simpl. repeat split; eexists; repeat split; try reflexivity.
      exists hs; split; [assumption|].
      apply nth_error_None in E. rewrite firstn_all2 in HF by lia. exact HF.
  - (* PWait *)
    destruct Hpc as (-> & Hlt & hs & Hh & HF).
    destruct (nth_error items i) as [info|] eqn:E.
    2:{ apply nth_error_None in E; lia. }
    rewrite Forall_forall in Hg.
    rewrite (Hg info (nth_error_In _ _ E)).
    unfold lone_run; simpl. repeat split; eexists; repeat split; try reflexivity.
    + exact Hlt.
    + exists hs; split; assumption.
  - (* PFlight *)
    destruct Hpc as (-> & Hlt & hs & Hh & HF).
    destruct (nth_error items i) as [info|] eqn:E.
    2:{ apply nth_error_None in E; lia. }
    destruct (run_item_ok env st info q f) as [d Hr]; rewrite Hr; simpl.
    unfold lone_run; simpl. repeat split; eexists; repeat split; try reflexivity.
    + lia.
    + exists (hs ++ [expected_entry q f info env]). split.
      * rewrite Hh, app_assoc; reflexivity.
      * rewrite (firstn_S_nth _ _ _ E). apply Forall2_app; [exact HF|].
        constructor; [apply expected_entry_matches | constructor].
  - (* PCompleted *)
    unfold lone_run; simpl. repeat split; eexists; repeat split; try reflexivity.
    exact Hpc.
  - contradiction.
  - contradiction.
Qed.

Lemma lone_run_run : forall items q f h0 a tr,
  Forall (fun i => glob_error (title i) = None) items ->
  lone_run items q f h0 a -> only_worker0 tr -> lone_run items q f h0 (run a tr).
Proof.
  intros items q f h0 a tr Hg; revert a; induction tr as [|e tr IH]; intros a Ha Htr.
  - exact Ha.
  - inversion Htr as [|? ? [env ->] Htr']; subst.
    apply IH; [apply lone_run_step; assumption | exact Htr'].
Qed.

Lemma run_cons : forall a e tr, run a (e :: tr) = run (step a e) tr.
Proof. reflexivity. Qed.

Lemma step_check_some : forall a wk i info env,
  workers a = [wk] -> w_pc wk = PCheck i -> nth_error (w_items wk) i = Some info ->
  cancel_event a = Some false ->
  step a (Work 0 env) = set_workers a [set_pc wk (PWait i)].
Proof.
  intros [bvi qv fv pe ce db ws st] [its wq wf pc started] i info env Hw Hpc E Hc;
    simpl in *; subst.
  unfold step, worker_step; simpl in *; rewrite E; reflexivity.
Qed.

Lemma step_check_none : forall a wk i env,
  workers a = [wk] -> w_pc wk = PCheck i -> nth_error (w_items wk) i = None ->
  step a (Work 0 env) = set_workers (set_download_btn a true) [set_pc wk PCompleted].
Proof.
  intros [bvi qv fv pe ce db ws st] [its wq wf pc started] i env Hw Hpc E;
    simpl in *; subst.
  unfold step, worker_step; simpl in *; rewrite E; reflexivity.
Qed.

Lemma step_wait_go : forall a wk i info env,
  workers a = [wk] -> w_pc wk = PWait i -> pause_event a = Some true ->
  nth_error (w_items wk) i = Some info -> glob_error (title info) = None ->
  step a (Work 0 env) =
  set_workers a [mkWorker (w_items wk) (w_quality wk) (w_format wk) (PFlight i)
                          (w_started wk ++ [i])].
Proof.
  intros [bvi qv fv pe ce db ws st] [its wq wf pc started] i info env Hw Hpc Hp E G;
    simpl in *; subst. unfold step, worker_step; simpl in *. rewrite E, G. reflexivity.
Qed.

Lemma step_flight : forall a wk i info env,
  workers a = [wk] -> w_pc wk = PFlight i -> nth_error (w_items wk) i = Some info ->
  exists d, step a (Work 0 env) =
    set_workers (set_store a (mkStore (download_history (store a) ++
                   [expected_entry (w_quality wk) (w_format wk) info env]) d))
                [set_pc wk (PCheck (S i))].
Proof.
  intros [bvi qv fv pe ce db ws st] [its wq wf pc started] i info env Hw Hpc E;
    simpl in *; subst.
  destruct (run_item_ok env st info wq wf) as [d Hr].
  exists d. unfold step, worker_step; simpl in *; rewrite E, Hr; reflexivity.
Qed.

Lemma expected_entries_app : forall q f l1 l2 m1 m2,
  List.length l1 = List.length m1 ->
  expected_entries q f (l1 ++ l2) (m1 ++ m2) =
  expected_entries q f l1 m1 ++ expected_entries q f l2 m2.
Proof.
  intros q f l1; induction l1 as [|x l1 IH]; intros l2 [|y m1] m2 H;
    simpl in *; try discriminate; try reflexivity.
  rewrite IH by lia; reflexivity.
Qed.

Lemma nth_error_app_length : forall {A} (l1 l2 : list A),
  nth_error (l1 ++ l2) (List.length l1) = nth_error l2 0.
Proof.
  intros A l1 l2; rewrite nth_error_app2 by lia; rewrite Nat.sub_diag; reflexivity.
Qed.

Lemma canon_suffix : forall env0 q f h0 suf pre pre_envs suf_envs a wk,
  Forall (fun i => glob_error (title i) = None) suf ->
  workers a = [wk] -> w_quality wk = q -> w_format wk = f ->
  w_items wk = pre ++ suf -> w_pc wk = PCheck (List.length pre) ->
  pause_event a = Some true -> cancel_event a = Some false ->
  List.length pre = List.length pre_envs -> List.length suf = List.length suf_envs ->
  download_history (store a) = h0 ++ expected_entries q f pre pre_envs ->
  map w_pc (workers (run a (flat_map item_events suf_envs ++ [Work 0 env0]))) = [PCompleted] /\
  download_history (store (run a (flat_map item_events suf_envs ++ [Work 0 env0]))) =
    h0 ++ expected_entries q f (pre ++ suf) (pre_envs ++ suf_envs).
Proof.
  intros env0 q f h0 suf; induction suf as [|info suf IH];
    intros pre pre_envs suf_envs a wk Hg Hw Hq Hf Hits Hpc Hp Hc Hl Hls Hh.
  - destruct suf_envs; [|discriminate]. cbn [flat_map app].
    rewrite run_cons.
    rewrite (step_check_none a wk (List.length pre) env0 Hw Hpc)
      by (rewrite Hits, app_nil_r; apply nth_error_None; lia).
    simpl. rewrite !app_nil_r. split; [reflexivity | exact Hh].
  - destruct suf_envs as [|env suf_envs]; [discriminate|]. simpl in Hls.
    cbn [flat_map item_events app].
    rewrite run_cons.
    assert (E : nth_error (w_items wk) (List.length pre) = Some info)
      by (rewrite Hits, nth_error_app_length; reflexivity).
    rewrite (step_check_some a wk _ info env Hw Hpc E Hc).
    rewrite run_cons.
    apply Forall_cons_iff in Hg as [Hg0 Hg'].
    rewrite (step_wait_go _ (set_pc wk (PWait (List.length pre))) (List.length pre) info env)
      by (simpl; auto || reflexivity).
    rewrite run_cons.
    set (wk2 := mkWorker _ _ _ _ _).
    destruct (step_flight (set_workers (set_workers a [set_pc wk (PWait (List.length pre))]) [wk2])
                wk2 (List.length pre) info env eq_refl eq_refl E) as [d Hd].
    rewrite Hd; clear Hd.
    match goal with
    | |- map w_pc (workers (run ?x _)) = _ /\ _ =>
        destruct (IH (pre ++ [info]) (pre_envs ++ [env]) suf_envs x
                     (set_pc wk2 (PCheck (S (List.length pre))))) as [IH1 IH2]
    end.
    + exact Hg'.
    + reflexivity.
    + exact Hq.
    + exact Hf.
    + simpl. rewrite Hits, <- app_assoc; reflexivity.
    + simpl. rewrite length_app; simpl; f_equal; lia.
    + exact Hp.
    + exact Hc.
    + rewrite !length_app; simpl; lia.
    + lia.
    + simpl. rewrite Hh, <- app_assoc, expected_entries_app by exact Hl.
      subst q f; reflexivity.
    + split; [exact IH1|]. rewrite IH2, <- !app_assoc; reflexivity.
Qed.

Lemma step_init : forall a wk env,
  workers a = [wk] -> w_pc wk = PInit ->
  step a (Work 0 env) =
  set_workers a [mkWorker (batch_video_info a) (w_quality wk) (w_format wk) (PCheck 0) (w_started wk)].
Proof.
  intros [bvi qv fv pe ce db ws st] [its wq wf pc started] env Hw Hpc;
    simpl in *; subst; reflexivity.
Qed.

(** The first batch of a session (no earlier worker thread), on fetched
    items whose titles the partial-file glob accepts, that runs to
    completion with no pause, resume, cancel or new start (only its worker
    thread moves) has appended exactly one history entry per item, in the
    order of the items, each with status "completed" or "failed". *)
Theorem batch_run_appends_one_entry_per_item : forall a0 tr,
  batch_video_info a0 <> [] -> workers a0 = [] ->
  Forall (fun i => glob_error (title i) = None) (batch_video_info a0) ->
  only_worker0 tr ->
  map w_pc (workers (run (start_download_batch a0) tr)) = [PCompleted] ->
  exists hs,
    download_history (store (run (start_download_batch a0) tr)) =
      download_history (store a0) ++ hs /\
    List.length hs = List.length (batch_video_info a0) /\
    Forall2 (entry_matches (Presets.label_to_quality (quality_var a0))
                           (Presets.label_to_format (format_var a0)))
            hs (batch_video_info a0).
Proof.
  intros a0 tr Hne Hw Hg Htr Hdone.
  pose proof (lone_run_run _ _ _ _ _ tr Hg (lone_run_start a0 Hne Hw) Htr) as Hinv.
  destruct Hinv as (_ & _ & _ & wk & Hws & _ & _ & Hpc).
  rewrite Hws in Hdone; simpl in Hdone; injection Hdone as Hdone.
  rewrite Hdone in Hpc. destruct Hpc as (hs & Hh & HF).
  exists hs; repeat split; [exact Hh | eapply Forall2_length; exact HF | exact HF].
Qed.

Lemma batch_run_appends_one_entry_per_item_witness :
  exists hs,
    download_history (store (run (start_download_batch demo_app)
                                 (canon_trace env_ok [env_ok; env_fail]))) =
      download_history (store demo_app) ++ hs /\
    List.length hs = List.length (batch_video_info demo_app) /\
    Forall2 (entry_matches (Presets.label_to_quality (quality_var demo_app))
                           (Presets.label_to_format (format_var demo_app)))
            hs (batch_video_info demo_app).
Proof.
  apply batch_run_appends_one_entry_per_item.
  - discriminate.
  - reflexivity.
  - repeat constructor.
  - repeat constructor; eexists; reflexivity.
  - vm_compute; reflexivity.
Defined.

(** When the partial-file glob accepts every title, whatever each item's
    download does, the first batch of a session left alone handles every
    item: an item whose [download_video] raises gets one "failed" entry,
    the others one "completed" entry, in item order, and the loop goes on
    to the next item and ends normally ([PCompleted]). *)
Theorem batch_download_failure_isolated : forall a0 env0 envs,
  batch_video_info a0 <> [] -> workers a0 = [] ->
  Forall (fun i => glob_error (title i) = None) (batch_video_info a0) ->
  List.length envs = List.length (batch_video_info a0) ->
  map w_pc (workers (run (start_download_batch a0) (canon_trace env0 envs))) = [PCompleted] /\
  download_history (store (run (start_download_batch a0) (canon_trace env0 envs))) =
    download_history (store a0) ++
    expected_entries (Presets.label_to_quality (quality_var a0))
                     (Presets.label_to_format (format_var a0)) (batch_video_info a0) envs.
Proof.
  intros [bvi qv fv pe ce db ws st] env0 envs Hne Hw Hg Hl;
    cbn [batch_video_info workers quality_var format_var store] in *; subst ws.
  destruct bvi as [|x xs]; [congruence|].
  unfold canon_trace, start_download_batch; cbn [batch_video_info quality_var format_var workers app].
  rewrite run_cons.
  erewrite step_init; [| reflexivity | reflexivity].
  apply (canon_suffix env0 _ _ (download_history st) (x :: xs) [] [] envs _
           (mkWorker (x :: xs) (Presets.label_to_quality qv) (Presets.label_to_format fv) (PCheck 0) []));
    try reflexivity.
  - exact Hg.
  - symmetry; exact Hl.
  - simpl; rewrite app_nil_r; reflexivity.
Qed.

Lemma batch_download_failure_isolated_witness :
  map w_pc (workers (run (start_download_batch demo_app)
                         (canon_trace env_ok [env_fail; env_ok]))) = [PCompleted] /\
  download_history (store (run (start_download_batch demo_app)
                               (canon_trace env_ok [env_fail; env_ok]))) =
    download_history (store demo_app) ++
    expected_entries (Presets.label_to_quality (quality_var demo_app))
                     (Presets.label_to_format (format_var demo_app))
                     (batch_video_info demo_app) [env_fail; env_ok].
Proof.
  apply batch_download_failure_isolated.
  - discriminate.
  - reflexivity.
  - repeat constructor.
  - reflexivity.
Defined.

Lemma wait_paused_idle : forall a env n,
  workers a = [mkWorker (w_items (hd (mkWorker [] "" "" PInit []) (workers a)))
                        (w_quality (hd (mkWorker [] "" "" PInit []) (workers a)))
                        (w_format (hd (mkWorker [] "" "" PInit []) (workers a)))
                        (PWait 1)
                        (w_started (hd (mkWorker [] "" "" PInit []) (workers a)))] ->
  pause_event a = Some false ->
  run a (repeat (Work 0 env) n) = a.
Proof.
  intros [bvi qv fv pe ce db ws st] env n Hw Hp; cbn [workers pause_event] in *; subst pe.
  induction n as [|n IH]; [reflexivity|].
  simpl repeat; rewrite run_cons.
  replace (step _ (Work 0 env)) with (mkApp bvi qv fv (Some false) ce db ws st); [exact IH|].
  rewrite Hw; reflexivity.
Qed.

(** C3 (fails): a cancel issued while the worker waits in the pause loop is
    never seen there. On [demo_app], after [paused_then_canceled] the run is
    canceled but its worker stays in the pause loop at item 1 however long
    it runs (it never reaches [PCanceled]); a later resume (the
    [<Control-r>] binding) makes it start item 1 although the run was
    canceled before item 1 started. *)
Theorem cancel_while_paused_not_honoured :
  cancel_event (run demo_app paused_then_canceled) = Some true /\
  map w_pc (workers (run demo_app paused_then_canceled)) = [PWait 1] /\
  (forall env n, run (run demo_app paused_then_canceled) (repeat (Work 0 env) n)
                 = run demo_app paused_then_canceled) /\
  map w_pc (workers (run (run demo_app paused_then_canceled) [Resume; Work 0 env_ok]))
    = [PFlight 1] /\
  started_all (run (run demo_app paused_then_canceled) [Resume; Work 0 env_ok]) = [[0; 1]].
Proof.
  split; [vm_compute; reflexivity|].
  split; [vm_compute; reflexivity|].
  split; [|split; vm_compute; reflexivity].
  intros env n; apply wait_paused_idle; vm_compute; reflexivity.
Qed.

Lemma worker_step_frame : forall env a wk wk' a',
  worker_step env a wk = (wk', a') ->
  pause_event a' = pause_event a /\ cancel_event a' = cancel_event a /\
  workers a' = workers a /\ batch_video_info a' = batch_video_info a /\
  (pause_event a = Some false -> w_started wk' = w_started wk).
Proof.
  intros env [bvi qv fv pe ce db ws st] [its wq wf pc started] wk' a' H.
  unfold worker_step, finish in H; simpl in H.
  destruct pc as [| i | i | i | | |].
  - injection H as <- <-; repeat split; reflexivity.
  - destruct (nth_error its i); [destruct ce as [[|]|]|];
      injection H as <- <-; repeat split; reflexivity.
  - destruct pe as [[|]|];
      [destruct (nth_error its i) as [info|]; [destruct (glob_error (title info))|]| |];
      injection H as <- <-; repeat split; try reflexivity; discriminate.
  - destruct (nth_error its i) as [info|]; [destruct (run_item env st info wq wf)|];
      injection H as <- <-; repeat split; reflexivity.
  - injection H as <- <-; repeat split; reflexivity.
  - injection H as <- <-; repeat split; reflexivity.
  - injection H as <- <-; repeat split; reflexivity.
Qed.

Lemma map_set_nth_same : forall {A B} (g : A -> B) l n x y,
  nth_error l n = Some y -> g x = g y -> map g (set_nth l n x) = map g l.
Proof.
  intros A B g l; induction l as [|z l IH]; intros [|n] x y E Hg; simpl in *;
    try discriminate.
  - injection E as ->; rewrite Hg; reflexivity.
  - rewrite (IH n x y E Hg); reflexivity.
Qed.

Lemma paused_step_no_start : forall a e,
  pause_event a = Some false -> e <> Resume /\ e <> Start /\ e <> ClickDownload ->
  pause_event (step a e) = Some false /\ started_all (step a e) = started_all a.
Proof.
  intros a e Hp (Hr & Hs & Hc).
  destruct e as [| | | | |w env]; try congruence.
  - unfold step, pause_download; rewrite Hp; split; reflexivity.
  - unfold step, cancel_download; destruct (cancel_event a); split; try reflexivity; exact Hp.
  - unfold step. destruct (nth_error (workers a) w) as [wk|] eqn:E; [|split; [exact Hp|reflexivity]].
    destruct (worker_step env a wk) as [wk' a'] eqn:Hws.
    destruct (worker_step_frame _ _ _ _ _ Hws) as (Hp' & _ & Hw' & _ & Hst).
    unfold started_all; cbn [pause_event workers set_workers].
    split; [rewrite Hp'; exact Hp|].
    rewrite Hw'. apply (map_set_nth_same _ _ _ _ wk E). apply Hst; exact Hp.
Qed.

(** Pausing a running batch stops every further item start as long as
    the user neither resumes nor starts a batch again: whatever the worker
    threads and cancel do, no download is started after the pause. The
    item in flight is unaffected: finishing it after the pause gives the
    same state as finishing it and then pausing. *)
Theorem pause_blocks_further_starts : forall a tr,
  pause_event a = Some true -> no_restart_or_resume tr ->
  started_all (run (pause_download a) tr) = started_all a /\
  (forall w wk i env, nth_error (workers a) w = Some wk -> w_pc wk = PFlight i ->
     step (pause_download a) (Work w env) = pause_download (step a (Work w env))).
Proof.
  intros a tr Hp Htr; split.
  - assert (Hp0 : pause_event (pause_download a) = Some false)
      by (unfold pause_download; rewrite Hp; reflexivity).
    assert (Hs0 : started_all (pause_download a) = started_all a)
      by (unfold pause_download; rewrite Hp; reflexivity).
    rewrite <- Hs0. clear Hs0 Hp. revert Hp0.
    generalize (pause_download a) as b. clear a.
    induction tr as [|e tr IH]; intros b Hb; [reflexivity|].
    inversion Htr as [|? ? He Htr']; subst.
    rewrite run_cons.
    destruct (paused_step_no_start b e Hb He) as [Hb' Hs'].
    rewrite <- Hs'. apply IH; assumption.
  - intros w wk i env E Hpc.
    destruct a as [bvi qv fv pe ce db ws st]; cbn [pause_event workers] in *; subst pe.
    destruct wk as [its wq wf pc started]; cbn [w_pc] in Hpc; subst pc.
    unfold step; simpl; rewrite E; unfold worker_step; simpl.
    destruct (nth_error its i) as [info|]; [|reflexivity].
    destruct (run_item env st info wq wf); reflexivity.
Qed.

Lemma pause_blocks_further_starts_witness :
  started_all (run (pause_download (run demo_app [Start; Work 0 env_ok; Work 0 env_ok; Work 0 env_ok]))
                   [Work 0 env_ok; Work 0 env_ok; Work 0 env_ok; Cancel; Work 0 env_ok]) =
    started_all (run demo_app [Start; Work 0 env_ok; Work 0 env_ok; Work 0 env_ok]) /\
  (forall w wk i env,
     nth_error (workers (run demo_app [Start; Work 0 env_ok; Work 0 env_ok; Work 0 env_ok])) w = Some wk ->
     w_pc wk = PFlight i ->
     step (pause_download (run demo_app [Start; Work 0 env_ok; Work 0 env_ok; Work 0 env_ok])) (Work w env) =
     pause_download (step (run demo_app [Start; Work 0 env_ok; Work 0 env_ok; Work 0 env_ok]) (Work w env))).
Proof.
  apply pause_blocks_further_starts.
  - vm_compute; reflexivity.
  - repeat constructor; discriminate.
Defined.

(** C5 (fails): nothing rejects a second start while a run is active.
    After [canceled_in_flight] item 0 is still downloading but
    [cancel_download] has enabled the download button again; clicking it
    starts a second worker and replaces the events the first worker reads,
    so the first worker, although canceled, goes on to start item 1. The
    [<Control-d>] binding starts a second worker even without the cancel. *)
Theorem start_while_active_not_rejected :
  map w_pc (workers (run demo_app canceled_in_flight)) = [PFlight 0] /\
  cancel_event (run demo_app canceled_in_flight) = Some true /\
  download_btn (run demo_app canceled_in_flight) = true /\
  map w_pc (workers (run demo_app (canceled_in_flight ++ [ClickDownload]))) = [PFlight 0; PInit] /\
  cancel_event (run demo_app (canceled_in_flight ++ [ClickDownload])) = Some false /\
  map w_pc (workers (run demo_app (canceled_in_flight ++
                                   [ClickDownload; Work 0 env_ok; Work 0 env_ok; Work 0 env_ok])))
    = [PFlight 1; PInit] /\
  map w_pc (workers (run demo_app [Start; Work 0 env_ok; Work 0 env_ok; Work 0 env_ok; Start]))
    = [PFlight 0; PInit].
Proof. repeat split; vm_compute; reflexivity. Qed.

Lemma died_idle : forall a wk env n,
  workers a = [wk] -> w_pc wk = PDied -> run a (repeat (Work 0 env) n) = a.
Proof.
  intros [bvi qv fv pe ce db ws st] [its wq wf pc started] env n Hw Hpc;
    cbn [workers w_pc] in *; subst ws pc.
  induction n as [|n IH]; [reflexivity|].
  simpl repeat; rewrite run_cons. exact IH.
Qed.

(** C1 (fails): a batch started after an earlier run was paused and then
    canceled does not append one entry per item. The earlier worker is
    still in its pause loop (see C3); the new start sets a fresh
    [_pause_event], so that worker wakes and downloads its item 1 too.
    The second run of the two fetched videos, left alone, completes, yet
    three entries are appended while it runs, and not in item order. *)
Theorem later_batch_gets_extra_entries :
  let a1 := run demo_app restarted_after_cancel in
  let a2 := run a1 second_run in
  Forall (fun e => exists w env, e = Work w env) second_run /\
  pause_event a1 = Some true /\ cancel_event a1 = Some false /\
  map w_pc (workers a1) = [PWait 1; PInit] /\
  map w_pc (workers a2) = [PCompleted; PCompleted] /\
  List.length (batch_video_info a1) = 2 /\
  map h_title (skipn (List.length (download_history (store a1))) (download_history (store a2)))
    = ["Title https://youtu.be/b"; "Title https://youtu.be/a"; "Title https://youtu.be/b"].
Proof.
  cbv zeta. split; [repeat constructor; eexists; eexists; reflexivity|].
  repeat split; vm_compute; reflexivity.
Qed.

(** C2 (fails): an exception outside the per-item [try] ends the batch.
    In a batch whose item 0 fails to download and whose item 1 has a title
    starting with ['/'], item 0 gets its "failed" entry, but the glob for
    item 1's partial files raises [NotImplementedError] and the worker
    thread dies: item 1 is never downloaded nor recorded, and the download
    button stays disabled however long the thread is given. On CPython 3.8
    to 3.12 a title with ['**'] inside a word raises [ValueError] there the
    same way. *)
Theorem glob_error_kills_batch :
  let a := run (start_download_batch slash_app) (canon_trace env_ok [env_fail; env_ok]) in
  glob_error "/r/videos: best clips of the week" = Some "Non-relative patterns are unsupported" /\
  glob_error "Top 10 **rare** moments" =
    Some "Invalid pattern: '**' can only be an entire path component" /\
  map w_pc (workers a) = [PDied] /\
  started_all a = [[0]] /\
  map (fun e => (h_url e, h_status e)) (download_history (store a)) =
    [("https://youtu.be/a", "failed")] /\
  download_btn a = false /\
  (forall env n, run a (repeat (Work 0 env) n) = a).
Proof.
  cbv zeta. repeat split; try (vm_compute; reflexivity).
  intros env n. eapply died_idle; vm_compute; reflexivity.
Qed.

(** C4 (fails): a pause does not hold until [resume()]. While the worker
    waits in the pause loop at item 1, the [<Control-d>] binding starts a
    new run, whose fresh [_pause_event] is set: the paused worker goes on
    and starts item 1 although nobody resumed. *)
Theorem restart_while_paused_starts_next_item :
  let b := run demo_app paused_at_item1 in
  let c := run b [Start; Work 0 env_ok] in
  pause_event b = Some false /\
  map w_pc (workers b) = [PWait 1] /\ started_all b = [[0]] /\
  ~ In Resume (paused_at_item1 ++ [Start; Work 0 env_ok]) /\
  map w_pc (workers c) = [PFlight 1; PInit] /\ started_all c = [[0; 1]; []].
Proof.
  cbv zeta. repeat split; try (vm_compute; reflexivity).
  simpl. intuition discriminate.
Qed.

End BatchFacts.

Module ProgressFacts.
Import Progress ProgressSpec.
Local Open Scope Q_scope.






























End ProgressFacts.

Module PresetFacts.
Import Presets.

Lemma dict_get_cases : forall d k default,
  (In k (map fst d) /\ In (k, dict_get d k default) d) \/
  (~ In k (map fst d) /\ dict_get d k default = default).
Proof.
  intros d k default; induction d as [|[k' v] rest IH]; simpl.
  - right; split; [intros [] | reflexivity].
  - destruct (String.eqb_spec k k') as [<-|Hne].
    + left; split; left; reflexivity.
    + destruct IH as [[Hin Hkv]|[Hnin Hdef]].
      * left; split; right; assumption.
      * right; split; [intros [E|E]; [congruence | contradiction] | exact Hdef].
Qed.

(** C7: [label_to_quality] and [label_to_format] are total functions of the
    label (Rocq functions, so the same label always gives the same
    selector); a preset label gives the selector the preset table pairs it
    with, any other label gives 'best' (quality) or 'mp4' (format), and the
    result is always one of the table's selectors. *)
Theorem label_mappings_total_with_defaults : forall label,
  (In label (map fst quality_presets) ->
     In (label, label_to_quality label) quality_presets) /\
  (~ In label (map fst quality_presets) -> label_to_quality label = "best"%string) /\
  (In label (map fst format_presets) ->
     In (label, label_to_format label) format_presets) /\
  (~ In label (map fst format_presets) -> label_to_format label = "mp4"%string) /\
  In (label_to_quality label) (map snd quality_presets) /\
  In (label_to_format label) (map snd format_presets).
Proof.
  intros label; unfold label_to_quality, label_to_format.
  destruct (dict_get_cases quality_presets label "best") as [[Hq1 Hq2]|[Hq1 Hq2]];
  destruct (dict_get_cases format_presets label "mp4") as [[Hf1 Hf2]|[Hf1 Hf2]];
  repeat split; intros; try contradiction; try assumption;
  try (apply (in_map snd) in Hq2; exact Hq2);
  try (apply (in_map snd) in Hf2; exact Hf2);
  try (rewrite Hq2; simpl; tauto); try (rewrite Hf2; simpl; tauto).
Qed.

End PresetFacts.

Module FetchFacts.
Import Fetch.

Lemma fetch_fold : forall get urls acc errors,
  fold_left
    (fun '(batch_video_info, errors) url =>
       match get url with
       | POk info => (batch_video_info ++ [info], errors)
       | PRaise _ => (batch_video_info, errors + 1)
       end)
    urls (acc, errors) =
  (acc ++ flat_map (resolved_one get) urls,
   errors + List.length (filter (fails get) urls)).
Proof.
  intros get urls; induction urls as [|u us IH]; intros acc errors; simpl.
  - rewrite app_nil_r, Nat.add_0_r; reflexivity.
  - destruct (get u) as [info|e] eqn:E; rewrite IH; cbn [flat_map filter].
    + assert (R : resolved_one get u = [info]) by (unfold resolved_one; rewrite E; reflexivity).
      assert (F : fails get u = false) by (unfold fails; rewrite E; reflexivity).
      rewrite R, F, <- app_assoc; reflexivity.
    + assert (R : resolved_one get u = []) by (unfold resolved_one; rewrite E; reflexivity).
      assert (F : fails get u = true) by (unfold fails; rewrite E; reflexivity).
      rewrite R, F; simpl; f_equal; lia.
Qed.

(** C8: for a non-empty list of URLs, the pass hands the caller the videos
    of the URLs that resolved, in order, each URL contributing what its own
    [get_video_info] call gave whatever the other calls did, together with
    the number of URLs whose call raised. *)
Theorem fetch_batch_isolates_failures : forall get urls,
  urls <> [] ->
  fetch_video_info_batch get urls =
    Some (flat_map (resolved_one get) urls,
          List.length (filter (fails get) urls)).
Proof.
  intros get urls H; destruct urls as [|u us]; [congruence|].
  unfold fetch_video_info_batch, fetch_thread. rewrite fetch_fold; reflexivity.
Qed.

Definition demo_get (url : string) : PyResult VideoInfo :=
  if String.eqb url "https://youtu.be/private" then PRaise (Exception "Private video")
  else POk (mkVideoInfo url 0 "" [] url "Unknown" 0).

Lemma fetch_batch_isolates_failures_witness :
  ["https://youtu.be/a"; "https://youtu.be/private"; "https://youtu.be/b"]%string <> [] /\
  fetch_video_info_batch demo_get
    ["https://youtu.be/a"; "https://youtu.be/private"; "https://youtu.be/b"]%string =
  Some (flat_map (resolved_one demo_get)
          ["https://youtu.be/a"; "https://youtu.be/private"; "https://youtu.be/b"]%string,
        List.length (filter (fails demo_get)
          ["https://youtu.be/a"; "https://youtu.be/private"; "https://youtu.be/b"]%string)).
Proof.
  split; [discriminate|].
  apply fetch_batch_isolates_failures; discriminate.
Defined.

End FetchFacts.

Module HistoryFacts.
Import History.

(** C9: [add_to_history] returns normally whatever the write of the
    history file does (it succeeds, [open] raises, or [json.dump] raises
    half way); the in-memory history is the old one with the new entry
    appended, the same in the three cases, and only the file differs. *)
Theorem add_to_history_never_raises : forall io s url title quality format_type status timestamp,
  exists s', add_to_history io s url title quality format_type status timestamp = POk s' /\
    download_history s' =
      download_history s ++ [mkEntry url title quality format_type status timestamp] /\
    disk s' = fst (write_history io
                     (mkStore (download_history s' ) (disk s))).
Proof.
  intros io s url title quality format_type status timestamp.
  unfold add_to_history, save_download_history.
  destruct (write_history io _) as [d [e|]] eqn:E;
    eexists; (split; [reflexivity|]); simpl; rewrite E; split; reflexivity.
Qed.

End HistoryFacts.

Module SettingsFacts.
Import Settings.

Lemma key_eqb_refl : forall k, key_eqb k k = true.
Proof.
  intros [s|q|]; simpl; [apply String.eqb_refl | apply Qeq_bool_refl | reflexivity].
Qed.

Lemma key_eqb_str : forall s k, key_eqb (KStr s) k = true -> k = KStr s.
Proof.
  intros s [s'|q|]; simpl; try discriminate.
  intros H; apply String.eqb_eq in H; subst; reflexivity.
Qed.

Lemma key_eqb_str_r : forall s k, key_eqb k (KStr s) = true -> k = KStr s.
Proof.
  intros s [s'|q|]; simpl; try discriminate.
  intros H; apply String.eqb_eq in H; subst; reflexivity.
Qed.

Lemma key_eqb_str_same : forall s kk k',
  key_eqb kk k' = true -> key_eqb (KStr s) k' = key_eqb (KStr s) kk.
Proof.
  intros s [a|q|] [b|q'|]; simpl; try discriminate; try reflexivity.
  intros H; apply String.eqb_eq in H; subst; reflexivity.
Qed.

Lemma lookup_set : forall d kk w s,
  dict_lookup (dict_set d kk w) (KStr s) =
  if key_eqb (KStr s) kk then Some w else dict_lookup d (KStr s).
Proof.
  intros d kk w s; induction d as [|[k' v'] rest IH]; cbn [dict_set dict_lookup];
    [reflexivity|].
  destruct (key_eqb kk k') eqn:E1; cbn [dict_lookup].
  - rewrite (key_eqb_str_same s kk k' E1); destruct (key_eqb (KStr s) kk); reflexivity.
  - rewrite IH. destruct (key_eqb (KStr s) k') eqn:E2; [|reflexivity].
    apply key_eqb_str in E2; subst k'.
    destruct (key_eqb (KStr s) kk) eqn:E3; [|reflexivity].
    apply key_eqb_str in E3; subst kk. rewrite key_eqb_refl in E1; discriminate.
Qed.

Definition has (s : string) (d : Dict) : Prop := exists v, dict_lookup d (KStr s) = Some v.

Lemma set_keeps : forall s d kk w, has s d -> has s (dict_set d kk w).
Proof.
  intros s d kk w [v Hv]; unfold has; rewrite lookup_set.
  destruct (key_eqb (KStr s) kk); eexists; [reflexivity | exact Hv].
Qed.

Lemma seq_keeps : forall s elems d, has s d -> has s (fst (update_from_seq d elems)).
Proof.
  intros s elems; induction elems as [|e rest IH]; intros d H; simpl; [exact H|].
  destruct (pair_of e) as [[k v]|x]; simpl; [apply IH, set_keeps, H | exact H].
Qed.

Lemma fold_keeps : forall s (l : Dict) d,
  has s d -> has s (fold_left (fun d '(k, v) => dict_set d k v) l d).
Proof.
  intros s l; induction l as [|[k v] rest IH]; intros d H; simpl; [exact H|].
  apply IH, set_keeps, H.
Qed.

Lemma update_keeps : forall s d other, has s d -> has s (fst (dict_update d other)).
Proof.
  intros s d [| b | q | str | elems | kvs] H; simpl;
    try exact H; try (apply seq_keeps; exact H).
  apply fold_keeps; exact H.
Qed.

Lemma defaults_have_keys : forall path k, In k default_keys -> has k (default_settings path).
Proof.
  intros path k Hk; simpl in Hk.
  repeat (destruct Hk as [<-|Hk]; [eexists; reflexivity|]); destruct Hk.
Qed.

Lemma lookup_app : forall (d1 d2 : Dict) k,
  dict_lookup (d1 ++ d2) k =
  match dict_lookup d1 k with Some v => Some v | None => dict_lookup d2 k end.
Proof.
  intros d1 d2 k; induction d1 as [|[k' v'] rest IH]; simpl; [reflexivity|].
  destruct (key_eqb k k'); [reflexivity | exact IH].
Qed.

Lemma fold_set_lookup : forall (l : Dict) d s,
  dict_lookup (fold_left (fun d '(k, v) => dict_set d k v) l d) (KStr s) =
  match dict_lookup (rev l) (KStr s) with
  | Some v => Some v
  | None => dict_lookup d (KStr s)
  end.
Proof.
  intros l; induction l as [|[k v] rest IH]; intros d s; [reflexivity|].
  cbn [fold_left rev]. rewrite IH, lookup_app, lookup_set.
  destruct (dict_lookup (rev rest) (KStr s)); [reflexivity|].
  cbn [dict_lookup]. destruct (key_eqb (KStr s) k); reflexivity.
Qed.

Lemma map_fst_set : forall d kk w,
  map fst (dict_set d kk w) = map fst d \/
  (map fst (dict_set d kk w) = map fst d ++ [kk] /\ ~ In kk (map fst d)).
Proof.
  intros d kk w; induction d as [|[k' v'] rest IH]; simpl.
  - right; split; [reflexivity | intros []].
  - destruct (key_eqb kk k') eqn:E; simpl; [left; reflexivity|].
    destruct IH as [H|[H Hn]]; rewrite H; [left; reflexivity|].
    right; split; [reflexivity|].
    intros [<-|Hin]; [rewrite key_eqb_refl in E; discriminate | exact (Hn Hin)].
Qed.

Lemma set_nodup : forall d kk w, NoDup (map fst d) -> NoDup (map fst (dict_set d kk w)).
Proof.
  intros d kk w H.
  destruct (map_fst_set d kk w) as [->|[-> Hn]]; [exact H|].
  apply NoDup_app; [exact H | constructor; [intros [] | constructor] |].
  intros a Ha [<-|[]]; exact (Hn Ha).
Qed.

Lemma of_object_nodup : forall kvs, NoDup (map fst (dict_of_object kvs)).
Proof.
  intros kvs; unfold dict_of_object.
  assert (G : forall d, NoDup (map fst d) ->
            NoDup (map fst (fold_left (fun d '(k, v) => dict_set d (KStr k) v) kvs d))).
  { induction kvs as [|[k v] rest IH]; intros d H; simpl; [exact H|].
    apply IH, set_nodup, H. }
  apply G; constructor.
Qed.

Lemma lookup_in : forall (d : Dict) s v, dict_lookup d (KStr s) = Some v -> In (KStr s, v) d.
Proof.
  intros d s v; induction d as [|[k' v'] rest IH]; cbn [dict_lookup]; [discriminate|].
  destruct (key_eqb (KStr s) k') eqn:E.
  - intros H; injection H as <-; apply key_eqb_str in E; subst; left; reflexivity.
  - intros H; right; apply IH, H.
Qed.

Lemma in_lookup : forall (d : Dict) s v,
  NoDup (map fst d) -> In (KStr s, v) d -> dict_lookup d (KStr s) = Some v.
Proof.
  intros d s v; induction d as [|[k' v'] rest IH]; intros Hd Hin; [destruct Hin|].
  cbn [map fst] in Hd; cbn [dict_lookup]. inversion Hd as [|? ? Hn Hd']; subst.
  destruct Hin as [E|Hin].
  - injection E as <- <-; rewrite key_eqb_refl; reflexivity.
  - destruct (key_eqb (KStr s) k') eqn:E.
    + apply key_eqb_str in E; subst. exfalso; apply Hn.
      apply (in_map fst) in Hin; exact Hin.
    + apply IH; assumption.
Qed.

Lemma lookup_rev : forall (d : Dict) s,
  NoDup (map fst d) -> dict_lookup (rev d) (KStr s) = dict_lookup d (KStr s).
Proof.
  intros d s H.
  assert (Hr : NoDup (map fst (rev d))) by (rewrite map_rev; apply NoDup_rev, H).
  destruct (dict_lookup d (KStr s)) as [v|] eqn:E.
  - apply in_lookup; [exact Hr|]. apply in_rev; rewrite rev_involutive. apply lookup_in, E.
  - destruct (dict_lookup (rev d) (KStr s)) as [v|] eqn:E'; [|reflexivity].
    apply lookup_in in E'. apply in_rev in E'.
    rewrite (in_lookup d s v H E') in E; discriminate.
Qed.

(** C10: whatever [settings.json] holds (no file, a file that cannot be
    read, text that is not JSON, or any JSON value, on which [update] may
    raise half way), [load_settings] returns a dict holding every default
    key; without a usable file it is exactly [default_settings]; for a JSON
    object, a key the file has takes the file's value and any other key
    keeps its default. *)
Theorem load_settings_complete : forall download_path,
  (forall f k, In k default_keys -> exists v,
     dict_lookup (load_settings download_path f) (KStr k) = Some v) /\
  load_settings download_path Missing = default_settings download_path /\
  (forall e, load_settings download_path (OpenFails e) = default_settings download_path) /\
  load_settings download_path (Contents None) = default_settings download_path /\
  (forall kvs k,
     dict_lookup (load_settings download_path (Contents (Some (JObj kvs)))) (KStr k) =
     match dict_lookup (dict_of_object kvs) (KStr k) with
     | Some v => Some v
     | None => dict_lookup (default_settings download_path) (KStr k)
     end).
Proof.
  intros download_path; split; [|split; [reflexivity|split; [reflexivity|split; [reflexivity|]]]].
  - intros f k Hk. pose proof (defaults_have_keys download_path k Hk) as H.
    destruct f as [|e|[loaded|]]; simpl; try exact H.
    apply update_keeps, H.
  - intros kvs k. simpl. rewrite fold_set_lookup, lookup_rev by apply of_object_nodup.
    reflexivity.
Qed.

End SettingsFacts.

Module DownloadFacts.
Import Settings Download.

Lemma ydl_options_fields : forall sl ff out q fmt cb o,
  ydl_options sl ff out q fmt cb = POk o ->
  let base :=
    if String.eqb fmt "mp3" then audio_opts (path_join out "%(title)s.%(ext)s") cb "mp3"
    else if String.eqb fmt "m4a" then audio_opts (path_join out "%(title)s.%(ext)s") cb "m4a"
    else if String.eqb fmt "aac" then audio_opts (path_join out "%(title)s.%(ext)s") cb "aac"
    else mkOpts (path_join out "%(title)s.%(ext)s") cb (video_format q) [] None None false false in
  format o = format base /\ postprocessors o = postprocessors base /\
  outtmpl o = outtmpl base /\ continuedl o = true.
Proof.
  intros sl ff out q fmt cb o H. unfold ydl_options in H. cbv zeta in H |- *.
  destruct (truthy sl); [destruct (gt_zero sl) as [[|]|e]|];
    try discriminate;
    destruct ff as [p|]; try destruct (String.eqb p "");
    injection H as <-; repeat split.
Qed.

Lemma not_audio_eqb : forall fmt, ~ In fmt audio_types ->
  String.eqb fmt "mp3" = false /\ String.eqb fmt "m4a" = false /\ String.eqb fmt "aac" = false.
Proof.
  intros fmt H; unfold audio_types in H; simpl in H.
  repeat split; apply String.eqb_neq; intros ->; tauto.
Qed.

(** [download_video] with an audio format ('mp3', 'm4a' or 'aac') asks
    yt-dlp for the best audio stream and an FFmpeg audio extraction to that
    codec at 192 kbit/s, and the quality argument has no effect. *)
Theorem audio_formats_ignore_quality : forall sl ff out q fmt cb,
  In fmt audio_types ->
  ydl_options sl ff out q fmt cb = ydl_options sl ff out "best" fmt cb /\
  (forall o, ydl_options sl ff out q fmt cb = POk o ->
     format o = "bestaudio/best" /\
     postprocessors o = [mkPP "FFmpegExtractAudio" fmt "192"]).
Proof.
  intros sl ff out q fmt cb H.
  split.
  - destruct H as [<-|[<-|[<-|[]]]]; reflexivity.
  - intros o Ho. destruct (ydl_options_fields _ _ _ _ _ _ _ Ho) as (F & P & _).
    rewrite F, P. destruct H as [<-|[<-|[<-|[]]]]; split; reflexivity.
Qed.

Lemma audio_formats_ignore_quality_witness :
  ydl_options (JNum 0) None "/tmp" "1080p" "mp3" true =
    ydl_options (JNum 0) None "/tmp" "best" "mp3" true /\
  (forall o, ydl_options (JNum 0) None "/tmp" "1080p" "mp3" true = POk o ->
     format o = "bestaudio/best" /\
     postprocessors o = [mkPP "FFmpegExtractAudio" "mp3" "192"]).
Proof.
  apply audio_formats_ignore_quality. left; reflexivity.
Defined.

(** Every format type other than 'mp3', 'm4a' and 'aac' (the presets
    'mp4', 'webm' and 'best' included) gives exactly the options of 'mp4':
    no extraction, and a selector that caps the height for the six known
    qualities ('2160p' ... '360p', preferring an mp4 video with an m4a
    audio track) and is 'best' for any other quality. *)
Theorem video_formats_same_as_mp4 : forall sl ff out q fmt cb,
  ~ In fmt audio_types ->
  ydl_options sl ff out q fmt cb = ydl_options sl ff out q "mp4" cb /\
  (forall o, ydl_options sl ff out q fmt cb = POk o ->
     format o = video_format q /\ postprocessors o = []) /\
  (forall h, In h video_heights ->
     video_format (h ++ "p")%string =
       ("bestvideo[height<=" ++ h ++ "][ext=mp4]+bestaudio[ext=m4a]/best[height<=" ++ h ++ "]/best")%string) /\
  (~ In q (map (fun h => h ++ "p")%string video_heights) -> video_format q = "best").
Proof.
  intros sl ff out q fmt cb H.
  destruct (not_audio_eqb fmt H) as (E1 & E2 & E3).
  split; [|split; [|split]].
  - unfold ydl_options. rewrite E1, E2, E3. reflexivity.
  - intros o Ho. destruct (ydl_options_fields _ _ _ _ _ _ _ Ho) as (F & P & _).
    rewrite F, P, E1, E2, E3. split; reflexivity.
  - intros h Hh. repeat (destruct Hh as [<-|Hh]; [reflexivity|]). destruct Hh.
  - intros Hq. unfold video_heights in Hq; simpl in Hq. unfold video_format.
    repeat match goal with
    | |- context [String.eqb q ?c] =>
        destruct (String.eqb_spec q c) as [->|_]; [exfalso; tauto|]
    end. reflexivity.
Qed.

Lemma video_formats_same_as_mp4_witness :
  ydl_options (JNum 0) None "/tmp" "720p" "webm" false =
    ydl_options (JNum 0) None "/tmp" "720p" "mp4" false /\
  (forall o, ydl_options (JNum 0) None "/tmp" "720p" "webm" false = POk o ->
     format o = video_format "720p" /\ postprocessors o = []) /\
  (forall h, In h video_heights ->
     video_format (h ++ "p")%string =
       ("bestvideo[height<=" ++ h ++ "][ext=mp4]+bestaudio[ext=m4a]/best[height<=" ++ h ++ "]/best")%string) /\
  (~ In "720p" (map (fun h => h ++ "p")%string video_heights) -> video_format "720p" = "best").
Proof.
  apply video_formats_same_as_mp4. unfold audio_types; simpl; intuition discriminate.
Defined.

Lemma ydl_options_rate : forall sl ff out q fmt cb,
  gt_zero sl = POk true -> truthy sl = true ->
  exists o, ydl_options sl ff out q fmt cb = POk o /\ ratelimit o = Some sl.
Proof.
  intros sl ff out q fmt cb G T. unfold ydl_options. rewrite T, G.
  destruct ff as [p|]; [destruct (String.eqb p "")|]; eexists; split; reflexivity.
Qed.

Lemma ydl_options_norate : forall sl ff out q fmt cb,
  (truthy sl = false \/ gt_zero sl = POk false) ->
  exists o, ydl_options sl ff out q fmt cb = POk o /\ ratelimit o = None.
Proof.
  intros sl ff out q fmt cb [T|G]; unfold ydl_options;
    [rewrite T | destruct (truthy sl); [rewrite G|]];
  destruct ff as [p|]; try destruct (String.eqb p "");
  eexists; split; try reflexivity;
  repeat match goal with |- context [String.eqb fmt ?c] => destruct (String.eqb fmt c) end;
  reflexivity.
Qed.

(** The speed limit of the settings reaches yt-dlp as [ratelimit] exactly
    when it is a positive number (or [true]); zero, a negative number and
    any other falsy value mean no limit; and a non-empty string, list or
    object makes every [download_video] call raise "Download failed: ..."
    whatever yt-dlp would do, since [speed_limit > 0] raises [TypeError]. *)
Theorem speed_limit_option : forall ff out q fmt cb,
  (forall r : Q, (0 < r)%Q -> exists o,
     ydl_options (JNum r) ff out q fmt cb = POk o /\ ratelimit o = Some (JNum r)) /\
  (forall r : Q, (r <= 0)%Q -> exists o,
     ydl_options (JNum r) ff out q fmt cb = POk o /\ ratelimit o = None) /\
  (exists o, ydl_options (JBool true) ff out q fmt cb = POk o /\
     ratelimit o = Some (JBool true)) /\
  (forall sl, truthy sl = false -> exists o,
     ydl_options sl ff out q fmt cb = POk o /\ ratelimit o = None) /\
  (forall dl url s, s <> ""%string ->
     download_video dl (JStr s) ff url out q fmt cb =
     PRaise (Exception "Download failed: '>' not supported between instances of 'str' and 'int'")) /\
  (forall dl url l, l <> [] ->
     download_video dl (JArr l) ff url out q fmt cb =
     PRaise (Exception "Download failed: '>' not supported between instances of 'list' and 'int'")) /\
  (forall dl url kvs, kvs <> [] ->
     download_video dl (JObj kvs) ff url out q fmt cb =
     PRaise (Exception "Download failed: '>' not supported between instances of 'dict' and 'int'")).
Proof.
  intros ff out q fmt cb.
  split; [|split; [|split; [|split; [|split; [|split]]]]].
  - intros r Hr. apply ydl_options_rate.
    + simpl. destruct (Qle_bool r 0) eqn:E; [|reflexivity].
      apply Qle_bool_iff in E. exfalso; apply (Qlt_not_le _ _ Hr E).
    + simpl. destruct (Qeq_bool r 0) eqn:E; [|reflexivity].
      apply Qeq_bool_iff in E. exfalso. rewrite E in Hr. apply (Qlt_irrefl _ Hr).
  - intros r Hr. apply ydl_options_norate. right. simpl.
    apply Qle_bool_iff in Hr. rewrite Hr. reflexivity.
  - apply ydl_options_rate; reflexivity.
  - intros sl T. apply ydl_options_norate. left; exact T.
  - intros dl url s Hs. unfold download_video, ydl_options. simpl.
    destruct (String.eqb_spec s "") as [E|_]; [contradiction | reflexivity].
  - intros dl url l Hl. unfold download_video, ydl_options. simpl.
    destruct l; [contradiction | reflexivity].
  - intros dl url kvs Hk. unfold download_video, ydl_options. simpl.
    destruct kvs; [contradiction | reflexivity].
Qed.

End DownloadFacts.

Module CliFacts.
Import History Settings Download Cli.

(** [run_cli] keeps a history entry only for a download that succeeded:
    when [get_video_info] or the download raises, it exits with status 1
    and the history, in memory and on disk, is the one it loaded; when both
    return, it exits with status 0 after appending one 'completed' entry
    with the URL, title, quality and format it was given, and when the
    write succeeds that list is what the file holds. *)
Theorem run_cli_records_only_success : forall env argv,
  2 <= List.length argv ->
  let url := argv_at argv 1 "" in
  let out := argv_at argv 2 (downloads_dir env) in
  let quality := argv_at argv 3 "best" in
  let format_type := argv_at argv 4 "mp4" in
  let st := mkStore (load_download_history (history_disk env)) (history_disk env) in
  let sl := speed_limit_of (load_settings (downloads_dir env) (settings_file env)) in
  (forall e, get_video_info env url = PRaise e -> run_cli env argv = CliExit 1 st) /\
  (forall info e, get_video_info env url = POk info ->
     download_video (ydl_download env) sl (ffmpeg_path env) url out quality format_type true
       = PRaise e ->
     run_cli env argv = CliExit 1 st) /\
  (forall info, get_video_info env url = POk info ->
     download_video (ydl_download env) sl (ffmpeg_path env) url out quality format_type true
       = POk tt ->
     exists st', run_cli env argv = CliExit 0 st' /\
       download_history st' = load_download_history (history_disk env) ++
         [mkEntry url (title info) quality format_type "completed" (now env)] /\
       (history_io env = IoOk -> disk st' = DiskHistory (download_history st'))).
Proof.
  intros env argv Hlen url out quality format_type st sl.
  assert (Hl : (List.length argv <? 2) = false) by (apply Nat.ltb_ge; exact Hlen).
  split; [|split].
  - intros e He. unfold run_cli. rewrite Hl. fold url. rewrite He. reflexivity.
  - intros info e Hi Hd. unfold run_cli. rewrite Hl. fold url. rewrite Hi.
    fold out quality format_type sl. rewrite Hd. reflexivity.
  - intros info Hi Hd. unfold run_cli. rewrite Hl. fold url. rewrite Hi.
    fold out quality format_type sl. rewrite Hd.
    unfold add_to_history, save_download_history.
    destruct (history_io env) eqn:Eio; simpl; eexists; (split; [reflexivity|]);
      simpl; split; try reflexivity; intros E; discriminate.
Qed.

Definition demo_cli_env : CliEnv :=
  mkCliEnv "/home/u/Downloads" Missing DiskMissing None
    (fun u => POk (mkVideoInfo "Demo" 61 "" [] u "Uploader" 5))
    (fun _ _ => Batch.DlRaise "HTTP Error 403") IoOk "2026-01-01T00:00:00".

Lemma run_cli_records_only_success_witness :
  2 <= List.length ["youtube_downloader.py"; "https://youtu.be/x"] /\
  run_cli demo_cli_env ["youtube_downloader.py"; "https://youtu.be/x"] =
    CliExit 1 (mkStore [] DiskMissing).
Proof.
  split; [simpl; lia|].
  destruct (run_cli_records_only_success demo_cli_env
              ["youtube_downloader.py"; "https://youtu.be/x"] ltac:(simpl; lia))
    as (_ & H & _).
  apply (H (mkVideoInfo "Demo" 61 "" [] "https://youtu.be/x" "Uploader" 5)
           (Exception "Download failed: HTTP Error 403")); reflexivity.
Defined.

(** The quality and format names the usage text of [run_cli] offers are
    passed to [download_video] unchanged, which only knows the selectors
    ('1080p', 'mp3', ...): every quality name but '360p' gives the options
    of quality 'best', and every format name (e.g. 'MP3 Audio') gives the
    video options of format 'mp4'. *)
Theorem cli_usage_names_ignored : forall sl ff out cb,
  (forall fmt label, In label usage_qualities -> label <> "360p"%string ->
     ydl_options sl ff out label fmt cb = ydl_options sl ff out "best" fmt cb) /\
  (forall q label, In label usage_formats ->
     ydl_options sl ff out q label cb = ydl_options sl ff out q "mp4" cb).
Proof.
  intros sl ff out cb; split.
  - intros fmt label Hin Hne.
    repeat (destruct Hin as [<-|Hin]; [try reflexivity; contradiction|]); destruct Hin.
  - intros q label Hin.
    repeat (destruct Hin as [<-|Hin]; [reflexivity|]); destruct Hin.
Qed.

End CliFacts.

Module PersistFacts.
Import History Cli HistoryTab.

(** What the next launch reads back after [add_to_history]: when the file
    was written it loads exactly the in-memory history; when [json.dump]
    raised after [open] truncated the file it loads an empty history, every
    earlier entry lost although the error was swallowed; when [open]
    raised, the file is the one from before the call. *)
Theorem history_reload_after_add : forall io s url title quality format_type status timestamp s',
  add_to_history io s url title quality format_type status timestamp = POk s' ->
  (io = IoOk -> load_download_history (disk s') = download_history s') /\
  (io = IoWriteFails -> load_download_history (disk s') = []) /\
  (io = IoOpenFails -> disk s' = disk s).
Proof.
  intros io s url t q f st ts s' H.
  unfold add_to_history, save_download_history in H.
  destruct io; simpl in H; injection H as <-; simpl;
    repeat split; intros E; try discriminate; reflexivity.
Qed.

Lemma history_reload_after_add_witness :
  add_to_history IoWriteFails (mkStore [] (DiskHistory [])) "https://youtu.be/a" "A"
    "1080p" "mp4" "completed" "2026-01-01T00:00:00" =
    POk (mkStore [mkEntry "https://youtu.be/a" "A" "1080p" "mp4" "completed" "2026-01-01T00:00:00"]
                 DiskPartial) /\
  (IoWriteFails = IoOk -> load_download_history DiskPartial =
     [mkEntry "https://youtu.be/a" "A" "1080p" "mp4" "completed" "2026-01-01T00:00:00"]) /\
  (IoWriteFails = IoWriteFails -> load_download_history DiskPartial = []) /\
  (IoWriteFails = IoOpenFails -> DiskPartial = DiskHistory []).
Proof.
  split; [reflexivity|].
  apply (history_reload_after_add IoWriteFails (mkStore [] (DiskHistory []))
           "https://youtu.be/a" "A" "1080p" "mp4" "completed" "2026-01-01T00:00:00"
           (mkStore [mkEntry "https://youtu.be/a" "A" "1080p" "mp4" "completed"
                       "2026-01-01T00:00:00"] DiskPartial)).
  reflexivity.
Defined.

(** [clear_history] empties the in-memory history once confirmed, and
    nothing otherwise; the next launch then loads an empty history when the
    file was written, but when [open] raised the old file is left and the
    cleared entries come back. *)
Theorem clear_history_reload : forall confirmed io s,
  exists s', clear_history confirmed io s = POk s' /\
  (confirmed = false -> s' = s) /\
  (confirmed = true -> download_history s' = [] /\
     (io = IoOk -> load_download_history (disk s') = []) /\
     (io = IoWriteFails -> load_download_history (disk s') = []) /\
     (io = IoOpenFails -> load_download_history (disk s') = load_download_history (disk s))).
Proof.
  intros [|] io s; unfold clear_history.
  - unfold save_download_history. destruct io; simpl; eexists; (split; [reflexivity|]);
      split; intros E; try discriminate; repeat split; intros E'; try discriminate; reflexivity.
  - exists s; split; [reflexivity|]; split; [reflexivity | intros E; discriminate].
Qed.

End PersistFacts.

Module UrlFacts.
Import UrlText.

Definition notbreak (c : ascii) : bool := negb (is_linebreak c).

Fixpoint str_forall (p : ascii -> bool) (s : string) : bool :=
  match s with
  | EmptyString => true
  | String c r => p c && str_forall p r
  end.

(** The contents of a text box are empty or end with a line boundary. *)
Definition ends_break (p : string) : Prop :=
  p = "" \/ exists p' c, p = (p' ++ String c "")%string /\ is_linebreak c = true.

Definition clean (l : list string) : list string :=
  filter (fun u => negb (String.eqb u "")) (map strip l).

(** [splitlines_from] run over a prefix, without its final step. *)
Fixpoint sl_state (s cur : string) (cr : bool) : list string * string * bool :=
  match s with
  | EmptyString => ([], cur, cr)
  | String c r =>
      if cr && (nat_of_ascii c =? 10) then sl_state r cur false
      else if is_linebreak c then
        let '(ls, cu, f) := sl_state r "" (nat_of_ascii c =? 13) in (cur :: ls, cu, f)
      else sl_state r (cur ++ String c "")%string false
  end.

Lemma lf_break : is_linebreak "010" = true.
Proof. reflexivity. Qed.

Lemma lf_code : nat_of_ascii "010" = 10.
Proof. reflexivity. Qed.

Ltac lf_simpl :=
  cbn [append splitlines_from]; rewrite ?lf_break, ?lf_code;
  cbn [andb Nat.eqb String.eqb].

Lemma str_app_assoc : forall a b c : string, ((a ++ b) ++ c = a ++ (b ++ c))%string.
Proof. induction a as [|x a IH]; intros b c; simpl; [reflexivity | now rewrite IH]. Qed.

Lemma str_app_nil_r : forall a : string, (a ++ "")%string = a.
Proof. induction a as [|x a IH]; simpl; [reflexivity | now rewrite IH]. Qed.

Lemma str_forall_app : forall p a b,
  str_forall p (a ++ b)%string = str_forall p a && str_forall p b.
Proof.
  intros p; induction a as [|x a IH]; intros b; simpl; [reflexivity|].
  now rewrite IH, andb_assoc.
Qed.

Lemma nonbreak_not_lf : forall c, is_linebreak c = false -> (nat_of_ascii c =? 10) = false.
Proof.
  intros c H. destruct (Nat.eqb_spec (nat_of_ascii c) 10) as [E|E]; [|reflexivity].
  unfold is_linebreak in H. rewrite E in H. discriminate.
Qed.

Lemma sl_chunk : forall x r cur cr, x <> "" -> str_forall notbreak x = true ->
  splitlines_from (x ++ r) cur cr = splitlines_from r (cur ++ x) false.
Proof.
  induction x as [|c x IH]; intros r cur cr Hne Hx; [congruence|].
  cbn [str_forall] in Hx. apply andb_prop in Hx as [Hc Hx].
  unfold notbreak in Hc. apply negb_true_iff in Hc.
  change ((String c x ++ r)%string) with (String c (x ++ r)%string).
  cbn [splitlines_from]. rewrite (nonbreak_not_lf c Hc), andb_false_r, Hc.
  destruct x as [|c' x'].
  - reflexivity.
  - rewrite IH by (discriminate || assumption). now rewrite str_app_assoc.
Qed.

Lemma sl_app : forall a b cur cr,
  splitlines_from (a ++ b) cur cr =
  let '(ls, cu, f) := sl_state a cur cr in ls ++ splitlines_from b cu f.
Proof.
  induction a as [|c a IH]; intros b cur cr; [reflexivity|].
  change ((String c a ++ b)%string) with (String c (a ++ b)%string).
  cbn [splitlines_from sl_state].
  destruct (cr && (nat_of_ascii c =? 10)); [apply IH|].
  destruct (is_linebreak c); [|apply IH].
  rewrite IH. destruct (sl_state a "" (nat_of_ascii c =? 13)) as [[ls cu] f]. reflexivity.
Qed.

Lemma sl_state_app : forall a b cur cr,
  sl_state (a ++ b) cur cr =
  let '(ls, cu, f) := sl_state a cur cr in
  let '(ls', cu', f') := sl_state b cu f in (ls ++ ls', cu', f').
Proof.
  induction a as [|c a IH]; intros b cur cr.
  - cbn [append sl_state]. destruct (sl_state b cur cr) as [[ls cu] f]. reflexivity.
  - change ((String c a ++ b)%string) with (String c (a ++ b)%string).
    cbn [sl_state].
    destruct (cr && (nat_of_ascii c =? 10)); [apply IH|].
    destruct (is_linebreak c); [|apply IH].
    rewrite IH. destruct (sl_state a "" (nat_of_ascii c =? 13)) as [[ls cu] f].
    destruct (sl_state b cu f) as [[ls' cu'] f']. reflexivity.
Qed.

Lemma sl_state_inv : forall a cur cr, (cr = true -> cur = "") ->
  let '(ls, cu, f) := sl_state a cur cr in (f = true -> cu = "").
Proof.
  induction a as [|c a IH]; intros cur cr H; [exact H|].
  cbn [sl_state].
  destruct (cr && (nat_of_ascii c =? 10)); [apply IH; discriminate|].
  destruct (is_linebreak c); [|apply IH; discriminate].
  specialize (IH "" (nat_of_ascii c =? 13) (fun _ => eq_refl)).
  destruct (sl_state a "" (nat_of_ascii c =? 13)) as [[ls cu] f]. exact IH.
Qed.

Lemma split_after_break : forall p, ends_break p ->
  exists ls f, splitlines p = ls /\ forall b, splitlines (p ++ b) = ls ++ splitlines_from b "" f.
Proof.
  intros p [->|(p' & c & -> & Hc)].
  - exists [], false. split; reflexivity.
  - assert (Hs : exists ls, sl_state (p' ++ String c "") "" false = (ls, "", nat_of_ascii c =? 13)).
    { rewrite sl_state_app.
      pose proof (sl_state_inv p' "" false (fun E => match E with end)) as Hi.
      destruct (sl_state p' "" false) as [[ls cu] f].
      cbn [sl_state].
      destruct f eqn:Ef, (nat_of_ascii c =? 10) eqn:E10; cbn [andb];
        try (rewrite Hc; exists (ls ++ [cu]); reflexivity).
      apply Nat.eqb_eq in E10. rewrite E10. rewrite (Hi eq_refl).
      exists (ls ++ []). reflexivity. }
    destruct Hs as [ls Hs].
    exists ls, (nat_of_ascii c =? 13). split.
    + unfold splitlines. rewrite <- (str_app_nil_r (p' ++ String c "")), sl_app, Hs.
      cbn [splitlines_from String.eqb]. apply app_nil_r.
    + intros b. unfold splitlines. now rewrite sl_app, Hs.
Qed.

Lemma clean_app : forall a b, clean (a ++ b) = clean a ++ clean b.
Proof. intros a b. unfold clean. now rewrite map_app, filter_app. Qed.

Lemma clean_blank : forall l, clean ("" :: l) = clean l.
Proof. reflexivity. Qed.

Lemma tail_nl : forall f, clean (splitlines_from (String "010" "") "" f) = [].
Proof. intros [|]; reflexivity. Qed.

Lemma tail_line : forall u f, str_forall notbreak u = true ->
  clean (splitlines_from (u ++ String "010" (String "010" "")) "" f) = clean [u].
Proof.
  intros u f Hu. destruct u as [|c u'].
  - destruct f; reflexivity.
  - rewrite sl_chunk by (discriminate || assumption).
    lf_simpl.
    change [String c u'; ""] with ([String c u'] ++ [""]).
    rewrite clean_app. apply app_nil_r.
Qed.

Lemma append_core : forall c u, ends_break c -> str_forall notbreak u = true ->
  url_list (insert_end c (u ++ String "010" "")) = url_list c ++ clean [u].
Proof.
  intros c u Hc Hu. unfold url_list, text_get, insert_end, parse_urls.
  destruct (split_after_break c Hc) as (ls & f & _ & Happ).
  rewrite !str_app_assoc. cbn [append].
  rewrite !Happ. fold (clean (ls ++ splitlines_from (u ++ String "010" (String "010" "")) "" f)).
  fold (clean (ls ++ splitlines_from (String "010" "") "" f)).
  rewrite !clean_app, tail_line, tail_nl by assumption. now rewrite app_nil_r.
Qed.

Lemma lstrip_forall : forall p s, str_forall p s = true -> str_forall p (lstrip s) = true.
Proof.
  intros p; induction s as [|c r IH]; intros H; [reflexivity|].
  cbn [lstrip]. destruct (py_isspace c); [|exact H].
  apply IH. cbn [str_forall] in H. now apply andb_prop in H as [_ H].
Qed.

Lemma rstrip_forall : forall p s, str_forall p s = true -> str_forall p (rstrip s) = true.
Proof.
  intros p; induction s as [|c r IH]; intros H; [reflexivity|].
  cbn [str_forall] in H. apply andb_prop in H as [Hc H].
  cbn [rstrip]. destruct (String.eqb (rstrip r) "" && py_isspace c); [reflexivity|].
  cbn [str_forall]. now rewrite Hc, IH.
Qed.

Lemma strip_forall : forall p s, str_forall p s = true -> str_forall p (strip s) = true.
Proof. intros p s H. apply rstrip_forall, lstrip_forall, H. Qed.

Lemma rstrip_empty : forall s, rstrip s = "" <-> str_forall py_isspace s = true.
Proof.
  induction s as [|c r IH]; [split; reflexivity|].
  cbn [rstrip str_forall].
  destruct (String.eqb_spec (rstrip r) "") as [E|E], (py_isspace c) eqn:Ec; cbn [andb].
  - split; [intros _; now apply IH | reflexivity].
  - split; discriminate.
  - split; [discriminate | intros H; exfalso; now apply E, IH].
  - split; discriminate.
Qed.

Lemma lstrip_space : forall s, str_forall py_isspace (lstrip s) = str_forall py_isspace s.
Proof.
  induction s as [|c r IH]; [reflexivity|].
  cbn [lstrip]. destruct (py_isspace c) eqn:Ec; [|reflexivity].
  cbn [str_forall]. now rewrite Ec, IH.
Qed.

Lemma strip_empty : forall s, strip s = "" <-> str_forall py_isspace s = true.
Proof. intros s. unfold strip. now rewrite rstrip_empty, lstrip_space. Qed.

Lemma strip_app_nonempty : forall x y, strip x <> "" -> strip (x ++ y) <> "".
Proof.
  intros x y Hx H. apply Hx. apply strip_empty. apply strip_empty in H.
  rewrite str_forall_app in H. now apply andb_prop in H as [H _].
Qed.

Lemma rstrip_idem : forall s, rstrip (rstrip s) = rstrip s.
Proof.
  induction s as [|c r IH]; [reflexivity|].
  cbn [rstrip]. destruct (String.eqb (rstrip r) "" && py_isspace c) eqn:E; [reflexivity|].
  cbn [rstrip]. now rewrite IH, E.
Qed.

Lemma lstrip_head : forall s, lstrip s = "" \/
  exists c r, lstrip s = String c r /\ py_isspace c = false.
Proof.
  induction s as [|c r IH]; [now left|].
  cbn [lstrip]. destruct (py_isspace c) eqn:Ec; [exact IH|].
  right. now exists c, r.
Qed.

Lemma strip_idem : forall s, strip (strip s) = strip s.
Proof.
  intros s. unfold strip.
  destruct (lstrip_head s) as [E|(c & r & E & Ec)]; rewrite E; [reflexivity|].
  cbn [rstrip]. rewrite Ec, andb_false_r. cbn [lstrip]. rewrite Ec.
  cbn [rstrip]. rewrite Ec, andb_false_r, rstrip_idem. reflexivity.
Qed.

Lemma splitlines_breakfree : forall s cur cr, str_forall notbreak cur = true ->
  Forall (fun u => str_forall notbreak u = true) (splitlines_from s cur cr).
Proof.
  induction s as [|c r IH]; intros cur cr Hcur.
  - cbn [splitlines_from]. destruct (String.eqb cur ""); auto.
  - cbn [splitlines_from].
    destruct (cr && (nat_of_ascii c =? 10)); [now apply IH|].
    destruct (is_linebreak c) eqn:Ec; [constructor; [exact Hcur | now apply IH]|].
    apply IH. rewrite str_forall_app, Hcur. cbn. unfold notbreak. now rewrite Ec.
Qed.

Lemma concat_split : forall l,
  Forall (fun u => u <> "" /\ str_forall notbreak u = true) l ->
  splitlines (String.concat (String "010" "") l) = l.
Proof.
  induction l as [|x l IH]; intros H; [reflexivity|].
  apply Forall_cons_iff in H as [[Hx Hb] H].
  unfold splitlines. destruct l as [|y l].
  - cbn [String.concat]. rewrite <- (str_app_nil_r x), sl_chunk by assumption.
    cbn [splitlines_from append]. rewrite str_app_nil_r.
    destruct (String.eqb_spec x ""); [contradiction | reflexivity].
  - change (String.concat (String "010" "") (x :: y :: l)) with
      (x ++ String "010" "" ++ String.concat (String "010" "") (y :: l))%string.
    rewrite sl_chunk by assumption. lf_simpl.
    f_equal. apply IH, H.
Qed.

Lemma clean_fixed : forall l, Forall (fun u => u <> "" /\ strip u = u) l -> clean l = l.
Proof.
  induction l as [|x l IH]; intros H; [reflexivity|].
  apply Forall_cons_iff in H as [[Hx Hs] H].
  unfold clean. cbn [map filter]. rewrite Hs.
  destruct (String.eqb_spec x ""); [contradiction|]. cbn [negb]. f_equal. apply IH, H.
Qed.

(** The URL list of the text boxes holds no empty string, no string with
    whitespace at either end and no line break; joining it with "\n" and
    parsing again gives the same list. *)
Theorem parse_urls_normal_form : forall text,
  Forall (fun u => u <> "" /\ strip u = u /\ str_forall notbreak u = true) (parse_urls text) /\
  parse_urls (String.concat (String "010" "") (parse_urls text)) = parse_urls text.
Proof.
  intros text.
  assert (H : Forall (fun u => u <> "" /\ strip u = u /\ str_forall notbreak u = true)
                (parse_urls text)).
  { apply Forall_forall. intros u Hu. unfold parse_urls in Hu.
    apply filter_In in Hu as [Hu He]. apply in_map_iff in Hu as (v & <- & Hv).
    destruct (String.eqb_spec (strip v) ""); [discriminate|].
    split; [assumption|]. split; [apply strip_idem|].
    apply strip_forall.
    pose proof (splitlines_breakfree text "" false eq_refl) as Hb.
    rewrite Forall_forall in Hb. now apply Hb. }
  split; [exact H|].
  unfold parse_urls at 1. rewrite concat_split.
  - apply clean_fixed. eapply Forall_impl; [|exact H]. intros u [? [? ?]]. now split.
  - eapply Forall_impl; [|exact H]. intros u [? [? ?]]. now split.
Qed.

(** [drop]: a blank payload leaves the box as it is; otherwise, when the
    box is empty or ends with a line break, the stripped URL becomes one
    more entry of the list; when the box ends with a typed URL [x] and no
    line break, the dropped URL is glued onto [x] and the count stays. *)
Theorem drop_url_placement : forall contents data,
  str_forall notbreak data = true ->
  (strip data = "" -> drop contents data = contents) /\
  (strip data <> "" -> ends_break contents ->
     url_list (drop contents data) = url_list contents ++ [strip data]) /\
  (forall p x, contents = (p ++ x)%string -> ends_break p ->
     str_forall notbreak x = true -> strip x <> "" -> strip data <> "" ->
     url_list contents = url_list p ++ [strip x] /\
     url_list (drop contents data) = url_list p ++ [strip (x ++ strip data)]).
Proof.
  intros contents data Hd.
  assert (Hsd : str_forall notbreak (strip data) = true) by now apply strip_forall.
  split; [|split].
  - intros E. unfold drop. now rewrite E.
  - intros E Hc. unfold drop. destruct (String.eqb_spec (strip data) ""); [contradiction|].
    rewrite append_core by assumption. unfold clean. cbn [map filter].
    rewrite strip_idem. destruct (String.eqb_spec (strip data) ""); [contradiction|].
    reflexivity.
  - intros p x -> Hp Hx Hsx E.
    assert (Hx0 : x <> "") by (intros ->; apply Hsx; reflexivity).
    destruct (split_after_break p Hp) as (ls & f & _ & Happ).
    assert (Hlp : url_list p = clean ls).
    { unfold url_list, text_get, parse_urls. rewrite Happ.
      fold (clean (ls ++ splitlines_from (String "010" "") "" f)).
      now rewrite clean_app, tail_nl, app_nil_r. }
    rewrite Hlp. split.
    + unfold url_list, text_get, parse_urls. rewrite str_app_assoc, Happ.
      rewrite sl_chunk by assumption. lf_simpl.
      fold (clean (ls ++ [x])). rewrite clean_app. f_equal.
      unfold clean. cbn [map filter]. destruct (String.eqb_spec (strip x) ""); [contradiction|].
      reflexivity.
    + unfold drop. destruct (String.eqb_spec (strip data) ""); [contradiction|].
      unfold url_list, text_get, insert_end, parse_urls.
      rewrite !str_app_assoc. cbn [append].
      rewrite Happ, <- str_app_assoc, sl_chunk.
      * lf_simpl.
        fold (clean (ls ++ [(x ++ strip data)%string; ""])).
        change [(x ++ strip data)%string; ""] with ([(x ++ strip data)%string] ++ [""]).
        rewrite !clean_app, app_nil_r. f_equal.
        unfold clean. cbn [map filter].
        destruct (String.eqb_spec (strip (x ++ strip data)) "") as [E'|];
          [exfalso; exact (strip_app_nonempty x (strip data) Hsx E') | reflexivity].
      * intros E'. apply Hx0. destruct x; [reflexivity | discriminate].
      * now rewrite str_forall_app, Hx, Hsd.
Qed.

Lemma drop_url_placement_witness :
  str_forall notbreak " https://youtu.be/b " = true /\
  ((strip " https://youtu.be/b " = "" -> drop "https://youtu.be/a" " https://youtu.be/b " = "https://youtu.be/a") /\
   (strip " https://youtu.be/b " <> "" -> ends_break "https://youtu.be/a" ->
      url_list (drop "https://youtu.be/a" " https://youtu.be/b ") =
      url_list "https://youtu.be/a" ++ [strip " https://youtu.be/b "]) /\
   (forall p x, "https://youtu.be/a" = (p ++ x)%string -> ends_break p ->
      str_forall notbreak x = true -> strip x <> "" -> strip " https://youtu.be/b " <> "" ->
      url_list "https://youtu.be/a" = url_list p ++ [strip x] /\
      url_list (drop "https://youtu.be/a" " https://youtu.be/b ") =
        url_list p ++ [strip (x ++ strip " https://youtu.be/b ")])).
Proof.
  split; [reflexivity|].
  apply (drop_url_placement "https://youtu.be/a" " https://youtu.be/b "). reflexivity.
Defined.

(** [add_selected_to_batch] / [add_all_to_batch] on a box that is empty or
    ends with a line break: every non-blank URL of the selection is added
    to the batch list, stripped and in order, after the URLs already there. *)
Theorem add_to_batch_appends : forall contents urls,
  ends_break contents -> Forall (fun u => str_forall notbreak u = true) urls ->
  url_list (add_to_batch contents urls) =
    url_list contents ++ filter (fun u => negb (String.eqb u "")) (map strip urls).
Proof.
  intros contents urls; revert contents.
  induction urls as [|u us IH]; intros contents Hc Hus.
  - cbn. now rewrite app_nil_r.
  - apply Forall_cons_iff in Hus as [Hu Hus].
    change (add_to_batch contents (u :: us))
      with (add_to_batch (insert_end contents (u ++ String "010" "")%string) us).
    rewrite IH; [|right; exists (contents ++ u)%string, "010"%char; split;
                   [unfold insert_end; now rewrite str_app_assoc | reflexivity] | exact Hus].
    rewrite append_core by assumption. rewrite <- app_assoc. f_equal.
    exact (eq_sym (clean_app [u] us)).
Qed.

Lemma add_to_batch_appends_witness :
  ends_break "" /\ Forall (fun u => str_forall notbreak u = true) ["https://youtu.be/a"; "  "] /\
  url_list (add_to_batch "" ["https://youtu.be/a"; "  "]) =
    url_list "" ++ filter (fun u => negb (String.eqb u "")) (map strip ["https://youtu.be/a"; "  "]).
Proof.
  assert (H1 : ends_break "") by now left.
  assert (H2 : Forall (fun u => str_forall notbreak u = true) ["https://youtu.be/a"; "  "])
    by (repeat constructor).
  split; [exact H1|]. split; [exact H2|].
  exact (add_to_batch_appends "" ["https://youtu.be/a"; "  "] H1 H2).
Defined.

(** The clipboard monitor inserts at the start of the box: a non-blank URL
    becomes the first entry of the list whatever the box holds, and the
    URLs already there follow unchanged. *)
Theorem clipboard_insert_prepends : forall contents url,
  str_forall notbreak url = true ->
  url_list (clipboard_insert contents url) =
    filter (fun u => negb (String.eqb u "")) [strip url] ++ url_list contents.
Proof.
  intros contents url Hu.
  unfold url_list, text_get, clipboard_insert, insert_start, parse_urls.
  rewrite !str_app_assoc. cbn [append].
  fold (clean (splitlines (url ++ String "010" (contents ++ String "010" ""))%string)).
  fold (clean (splitlines (contents ++ String "010" "")%string)).
  fold (clean [url]).
  destruct url as [|c u'].
  - reflexivity.
  - unfold splitlines at 1. rewrite sl_chunk by (discriminate || assumption).
    lf_simpl.
    change (String c u' :: splitlines_from (contents ++ String "010" "") "" false)
      with ([String c u'] ++ splitlines (contents ++ String "010" "")).
    apply clean_app.
Qed.

Lemma clipboard_insert_prepends_witness :
  str_forall notbreak "https://youtu.be/c" = true /\
  url_list (clipboard_insert "https://youtu.be/a" "https://youtu.be/c") =
    filter (fun u => negb (String.eqb u "")) [strip "https://youtu.be/c"] ++
    url_list "https://youtu.be/a".
Proof.
  split; [reflexivity|].
  apply (clipboard_insert_prepends "https://youtu.be/a" "https://youtu.be/c"). reflexivity.
Defined.

End UrlFacts.

Module ConverterFacts.
Import UrlText Converter.

(** The characters of a YouTube video id: [A-Za-z0-9_-]. *)
Definition id_char (c : ascii) : bool :=
  let n := nat_of_ascii c in
  ((48 <=? n) && (n <=? 57)) || ((65 <=? n) && (n <=? 90)) ||
  ((97 <=? n) && (n <=? 122)) || (n =? 95) || (n =? 45).

Definition absent (z : ascii) (s : string) : bool := UrlFacts.str_forall (fun c => negb (Ascii.eqb c z)) s.

(** No occurrence of [sep] starts inside [b] when [b] is followed by [t]. *)
Fixpoint no_match_in (sep b t : string) : bool :=
  match b with
  | EmptyString => true
  | String c r => negb (String.prefix sep (String c r ++ t)) && no_match_in sep r t
  end.

Lemma prefix_nil : forall s, String.prefix "" s = true.
Proof. destruct s; reflexivity. Qed.

Lemma str_forall_mono : forall (p q : ascii -> bool) s,
  (forall c, p c = true -> q c = true) ->
  UrlFacts.str_forall p s = true -> UrlFacts.str_forall q s = true.
Proof.
  intros p q s Hpq; induction s as [|c r IH]; intros H; [reflexivity|].
  cbn [UrlFacts.str_forall] in *. apply andb_prop in H as [Hc H].
  now rewrite (Hpq c Hc), IH.
Qed.

Lemma id_char_not : forall z c, id_char z = false -> id_char c = true -> negb (Ascii.eqb c z) = true.
Proof.
  intros z c Hz Hc. destruct (Ascii.eqb_spec c z) as [->|]; [congruence | reflexivity].
Qed.

Lemma id_absent : forall z s, id_char z = false ->
  UrlFacts.str_forall id_char s = true -> absent z s = true.
Proof. intros z s Hz. apply str_forall_mono. intros c. now apply id_char_not. Qed.

Lemma prefix_app : forall n a b, String.prefix n a = true -> String.prefix n (a ++ b) = true.
Proof.
  induction n as [|d n IH]; intros a b H; [apply prefix_nil|].
  destruct a as [|c a]; [discriminate|].
  cbn [String.prefix append] in *. destruct (ascii_dec d c); [now apply IH | discriminate].
Qed.

Lemma contains_app_l : forall n a b, contains n a = true -> contains n (a ++ b) = true.
Proof.
  intros n; induction a as [|c a IH]; intros b H.
  - cbn [contains] in H. rewrite orb_false_r in H.
    destruct n; [cbn [append]; destruct b; reflexivity | discriminate].
  - change ((String c a ++ b)%string) with (String c (a ++ b)).
    cbn [contains] in *. apply orb_true_iff in H as [H|H].
    + apply orb_true_iff. left. exact (prefix_app n (String c a) b H).
    + apply orb_true_iff. right. now apply IH.
Qed.

(** A match of a needle ending with [z] cannot reach into a part without [z]. *)
Lemma prefix_last : forall n' z x b, absent z b = true ->
  String.prefix (n' ++ String z "") (x ++ b) = String.prefix (n' ++ String z "") x.
Proof.
  induction n' as [|d n' IH]; intros z x b Hb.
  - destruct x as [|c x]; cbn [append String.prefix].
    + destruct b as [|c b]; [reflexivity|]. cbn [absent UrlFacts.str_forall] in Hb.
      apply andb_prop in Hb as [Hc _]. cbn [String.prefix].
      destruct (ascii_dec z c) as [->|]; [|reflexivity].
      rewrite Ascii.eqb_refl in Hc. discriminate.
    + destruct (ascii_dec z c); rewrite ?prefix_nil; reflexivity.
  - destruct x as [|c x]; cbn [append String.prefix].
    + destruct b as [|c b]; [reflexivity|]. cbn [String.prefix].
      destruct (ascii_dec d c); [|reflexivity].
      cbn [absent UrlFacts.str_forall] in Hb. apply andb_prop in Hb as [_ Hb].
      specialize (IH z "" b Hb). cbn [append] in IH. rewrite IH.
      destruct (n' ++ String z "")%string eqn:E; [destruct n'; discriminate | reflexivity].
    + destruct (ascii_dec d c); [now apply IH | reflexivity].
Qed.

Lemma contains_last_absent : forall n' z a b, absent z b = true ->
  contains (n' ++ String z "") (a ++ b) = contains (n' ++ String z "") a.
Proof.
  intros n' z a b Hb. induction a as [|c a IH].
  - cbn [append]. induction b as [|c b IHb]; [reflexivity|].
    cbn [absent UrlFacts.str_forall] in Hb. apply andb_prop in Hb as [Hc Hb'].
    cbn [contains]. rewrite IHb by exact Hb'.
    pose proof (prefix_last n' z "" (String c b)) as P. cbn [append] in P.
    rewrite P by (cbn [absent UrlFacts.str_forall]; now rewrite Hc, Hb').
    cbn [contains]. destruct (String.prefix (n' ++ String z "") ""); reflexivity.
  - change ((String c a ++ b)%string) with (String c (a ++ b)).
    cbn [contains]. rewrite IH. f_equal.
    exact (prefix_last n' z (String c a) b Hb).
Qed.

Lemma split_seg : forall sep b t cur, no_match_in sep b t = true ->
  split_from sep (b ++ t) cur 0 = split_from sep t (cur ++ b) 0.
Proof.
  intros sep; induction b as [|c b IH]; intros t cur H.
  - now rewrite UrlFacts.str_app_nil_r.
  - cbn [no_match_in] in H. apply andb_prop in H as [Hc H]. apply negb_true_iff in Hc.
    change ((String c b ++ t)%string) with (String c (b ++ t)).
    cbn [split_from]. change (String c (b ++ t)) with ((String c b ++ t)%string).
    rewrite Hc, IH by exact H. now rewrite UrlFacts.str_app_assoc.
Qed.

Lemma no_match_last : forall n' z b t, absent z b = true -> absent z t = true ->
  no_match_in (n' ++ String z "") b t = true.
Proof.
  intros n' z; induction b as [|c b IH]; intros t Hb Ht; [reflexivity|].
  cbn [absent UrlFacts.str_forall] in Hb. apply andb_prop in Hb as [Hc Hb].
  cbn [no_match_in]. rewrite IH by assumption. rewrite andb_true_r.
  assert (P : String.prefix (n' ++ String z "") (String c b ++ t) =
               String.prefix (n' ++ String z "") "").
  { apply (prefix_last n' z "" (String c b ++ t)).
    cbn [absent UrlFacts.str_forall append]. rewrite Hc. cbn [andb].
    change (absent z (b ++ t) = true). unfold absent.
    rewrite UrlFacts.str_forall_app. unfold absent in Ht. now rewrite Hb, Ht. }
  rewrite P. destruct (n' ++ String z "")%string eqn:E; [destruct n'; discriminate | reflexivity].
Qed.

Lemma no_match_v_download : forall b, absent "=" b = true ->
  no_match_in "v=" b "&download=1" = true.
Proof.
  induction b as [|c b IH]; intros Hb; [reflexivity|].
  cbn [absent UrlFacts.str_forall] in Hb. apply andb_prop in Hb as [Hc Hb].
  cbn [no_match_in]. rewrite IH by exact Hb. rewrite andb_true_r.
  change ((String c b ++ "&download=1")%string) with (String c (b ++ "&download=1")).
  cbn [String.prefix]. destruct (ascii_dec "v" c); [|reflexivity].
  destruct b as [|c' b]; [reflexivity|].
  cbn [absent UrlFacts.str_forall] in Hb. apply andb_prop in Hb as [Hc' _].
  change ((String c' b ++ "&download=1")%string) with (String c' (b ++ "&download=1")).
  cbn [String.prefix]. destruct (ascii_dec "=" c') as [<-|]; [|reflexivity].
  rewrite Ascii.eqb_refl in Hc'. discriminate.
Qed.

Lemma strip_nospace : forall s,
  UrlFacts.str_forall (fun c => negb (py_isspace c)) s = true -> strip s = s.
Proof.
  intros s H. unfold strip.
  assert (Hl : lstrip s = s).
  { destruct s as [|c r]; [reflexivity|]. cbn [UrlFacts.str_forall] in H.
    apply andb_prop in H as [Hc _]. apply negb_true_iff in Hc. cbn [lstrip]. now rewrite Hc. }
  rewrite Hl. clear Hl. induction s as [|c r IH]; [reflexivity|].
  cbn [UrlFacts.str_forall] in H. apply andb_prop in H as [Hc H]. apply negb_true_iff in Hc.
  cbn [rstrip]. rewrite IH by exact H. now rewrite Hc, andb_false_r.
Qed.

Lemma contains_sub : forall a b s, contains (a ++ b) s = true -> contains b s = true.
Proof.
  assert (Hp : forall a b s, String.prefix (a ++ b) s = true -> contains b s = true).
  { induction a as [|d a IH]; intros b s H.
    - cbn [append] in H. destruct s; cbn [contains]; now rewrite H.
    - destruct s as [|c s]; [discriminate|]. cbn [append String.prefix] in H.
      destruct (ascii_dec d c); [|discriminate].
      cbn [contains]. apply orb_true_iff. right. now apply IH. }
  intros a b; induction s as [|c s IH]; intros H.
  - cbn [contains] in H. rewrite orb_false_r in H. now apply (Hp a).
  - cbn [contains] in H. apply orb_true_iff in H as [H|H].
    + now apply (Hp a).
    + cbn [contains]. apply orb_true_iff. right. now apply IH.
Qed.

Lemma split_none : forall sep b cur, no_match_in sep b "" = true ->
  split_from sep b cur 0 = [(cur ++ b)%string].
Proof.
  intros sep b cur H. rewrite <- (UrlFacts.str_app_nil_r b) at 1.
  now rewrite split_seg by exact H.
Qed.

Lemma no_match_single : forall z b t, absent z b = true ->
  no_match_in (String z "") b t = true.
Proof.
  intros z; induction b as [|c b IH]; intros t Hb; [reflexivity|].
  cbn [absent UrlFacts.str_forall] in Hb. apply andb_prop in Hb as [Hc Hb].
  cbn [no_match_in]. rewrite IH by exact Hb. rewrite andb_true_r.
  change ((String c b ++ t)%string) with (String c (b ++ t)).
  cbn [String.prefix]. destruct (ascii_dec z c) as [<-|]; [|reflexivity].
  rewrite Ascii.eqb_refl in Hc. discriminate.
Qed.

Lemma id_not_space : forall c, id_char c = true -> negb (py_isspace c) = true.
Proof.
  intros c. unfold id_char, py_isspace. generalize (nat_of_ascii c) as n. intros n H.
  apply negb_true_iff. apply not_true_iff_false. intros H'.
  repeat match goal with
  | h : _ || _ = true |- _ => apply orb_true_iff in h as [h|h]
  | h : _ && _ = true |- _ => apply andb_true_iff in h as [? ?]
  | h : (_ <=? _) = true |- _ => apply Nat.leb_le in h
  | h : (_ =? _) = true |- _ => apply Nat.eqb_eq in h
  end; lia.
Qed.

Lemma eqb_app_nonempty : forall c p x, String.eqb (String c p ++ x) "" = false.
Proof. reflexivity. Qed.

Lemma split_download_tail : forall cur,
  split_from "&" "&download=1" cur 0 = [cur; "download=1"].
Proof. reflexivity. Qed.

Lemma split_standard : forall x,
  split_from "v=" ("https://www.youtube.com/watch?v=" ++ x) "" 0 =
  "https://www.youtube.com/watch?" :: split_from "v=" x "" 0.
Proof. intros x. cbn. now rewrite prefix_nil. Qed.

Lemma split_mobile : forall x,
  split_from "v=" ("https://m.youtube.com/watch?v=" ++ x) "" 0 =
  "https://m.youtube.com/watch?" :: split_from "v=" x "" 0.
Proof. intros x. cbn. now rewrite prefix_nil. Qed.

Lemma split_short : forall x,
  split_from "youtu.be/" ("https://youtu.be/" ++ x) "" 0 =
  "https://" :: split_from "youtu.be/" x "" 0.
Proof. intros x. cbn. now rewrite prefix_nil. Qed.

Lemma split_nonempty : forall sep s cur k, split_from sep s cur k <> [].
Proof.
  intros sep; induction s as [|c r IH]; intros cur k; cbn [split_from]; [discriminate|].
  destruct k; [|apply IH]. destruct (String.prefix sep (String c r)); [discriminate | apply IH].
Qed.

Lemma split_two : forall sep s cur, contains sep s = true -> sep <> "" ->
  2 <= List.length (split_from sep s cur 0).
Proof.
  intros sep; induction s as [|c r IH]; intros cur H Hs.
  - cbn [contains] in H. destruct sep; [contradiction | discriminate].
  - cbn [contains] in H. cbn [split_from].
    destruct (String.prefix sep (String c r)).
    + cbn [List.length]. destruct (split_from sep r "" (String.length sep - 1)) eqn:E;
        [exfalso; exact (split_nonempty _ _ _ _ E) | cbn [List.length]; lia].
    + apply IH; assumption.
Qed.

(** [convert_url] never lets an exception escape: both [split(...)[1]]
    are guarded by the [in] tests before them, and [split(...)[0]]
    always exists. *)
Theorem convert_url_never_raises : forall input, convert_url input <> ConvCrash.
Proof.
  intros input. unfold convert_url.
  destruct (String.eqb (strip input) ""); [discriminate|].
  unfold extract_video_id, py_index, py_split.
  assert (Hi : forall sep piece, nth_error (split_from sep piece "" 0) 0 <> None).
  { intros sep piece. destruct (split_from sep piece "" 0) eqn:E;
      [exfalso; exact (split_nonempty _ _ _ _ E) | discriminate]. }
  assert (H1 : forall sep u, contains sep u = true -> sep <> "" ->
            nth_error (split_from sep u "" 0) 1 <> None).
  { intros sep u Hc Hs. apply nth_error_Some. pose proof (split_two sep u "" Hc Hs). lia. }
  destruct (contains "youtube.com/watch?v=" (strip input)) eqn:E1.
  - assert (Hv : contains "v=" (strip input) = true)
      by exact (contains_sub "youtube.com/watch?" "v=" _ E1).
    destruct (nth_error (split_from "v=" (strip input) "" 0) 1) as [piece|] eqn:E;
      [|exfalso; exact (H1 _ _ Hv ltac:(discriminate) E)].
    destruct (nth_error (split_from "&" piece "" 0) 0) as [v|] eqn:E';
      [|exfalso; exact (Hi _ _ E')].
    cbn [option_map]. destruct (String.eqb v ""); discriminate.
  - destruct (contains "youtu.be/" (strip input)) eqn:E2; [|discriminate].
    destruct (nth_error (split_from "youtu.be/" (strip input) "" 0) 1) as [piece|] eqn:E;
      [|exfalso; exact (H1 _ _ E2 ltac:(discriminate) E)].
    destruct (nth_error (split_from "?" piece "" 0) 0) as [v|] eqn:E';
      [|exfalso; exact (Hi _ _ E')].
    cbn [option_map]. destruct (String.eqb v ""); discriminate.
Qed.

(** Feeding back the URLs that [convert_url] produces for a video id:
    the Standard, Short, Mobile and Download forms give the same converted
    list again, but its own Embed form is rejected as an invalid URL. *)
Theorem convert_url_round_trip : forall video_id,
  video_id <> "" -> UrlFacts.str_forall id_char video_id = true ->
  let shown := ConvShow (result_text video_id) in
  convert_url ("https://www.youtube.com/watch?v=" ++ video_id) = shown /\
  convert_url ("https://youtu.be/" ++ video_id) = shown /\
  convert_url ("https://m.youtube.com/watch?v=" ++ video_id) = shown /\
  convert_url ("https://www.youtube.com/watch?v=" ++ video_id ++ "&download=1") = shown /\
  convert_url ("https://www.youtube.com/embed/" ++ video_id) = ConvError "Invalid YouTube URL".
Proof.
  intros v Hne Hid shown.
  assert (Heq : absent "=" v = true) by (apply id_absent; [reflexivity | exact Hid]).
  assert (Hamp : absent "&" v = true) by (apply id_absent; [reflexivity | exact Hid]).
  assert (Hq : absent "?" v = true) by (apply id_absent; [reflexivity | exact Hid]).
  assert (Hsl : absent "/" v = true) by (apply id_absent; [reflexivity | exact Hid]).
  assert (Hsp : UrlFacts.str_forall (fun c => negb (py_isspace c)) v = true)
    by exact (str_forall_mono id_char _ v id_not_space Hid).
  assert (Hstrip2 : forall p, UrlFacts.str_forall (fun c => negb (py_isspace c)) p = true ->
            strip (p ++ v) = (p ++ v)%string).
  { intros p Hp. apply strip_nospace. now rewrite UrlFacts.str_forall_app, Hp, Hsp. }
  assert (Hv0 : String.eqb v "" = false) by (apply String.eqb_neq; exact Hne).
  assert (Hnomatch_v : no_match_in "v=" v "" = true)
    by (apply (no_match_last "v" "="); [exact Heq | reflexivity]).
  assert (Hamp1 : split_from "&" v "" 0 = [v]).
  { rewrite split_none; [reflexivity | apply no_match_single; exact Hamp]. }
  assert (Hq1 : split_from "?" v "" 0 = [v]).
  { rewrite split_none; [reflexivity | apply no_match_single; exact Hq]. }
  assert (Hcw : forall p, contains "youtube.com/watch?v=" p = false ->
            contains "youtube.com/watch?v=" (p ++ v) = false).
  { intros p Hp.
    change (contains ("youtube.com/watch?v" ++ String "=" "") (p ++ v) = false).
    rewrite contains_last_absent by exact Heq. exact Hp. }
  assert (Hcb : forall p, contains "youtu.be/" p = false ->
            contains "youtu.be/" (p ++ v) = false).
  { intros p Hp.
    change (contains ("youtu.be" ++ String "/" "") (p ++ v) = false).
    rewrite contains_last_absent by exact Hsl. exact Hp. }
  split; [|split; [|split; [|split]]].
  - unfold convert_url. rewrite Hstrip2 by reflexivity. rewrite eqb_app_nonempty.
    unfold extract_video_id, py_index, py_split.
    rewrite (contains_app_l "youtube.com/watch?v=" "https://www.youtube.com/watch?v=" v eq_refl).
    rewrite split_standard, split_none by exact Hnomatch_v. cbn [nth_error option_map append].
    rewrite Hamp1. cbn [nth_error option_map]. now rewrite Hv0.
  - unfold convert_url. rewrite Hstrip2 by reflexivity. rewrite eqb_app_nonempty.
    unfold extract_video_id, py_index, py_split.
    rewrite Hcw by reflexivity.
    rewrite (contains_app_l "youtu.be/" "https://youtu.be/" v eq_refl).
    rewrite split_short, split_none
      by (apply (no_match_last "youtu.be" "/"); [exact Hsl | reflexivity]).
    cbn [nth_error option_map append]. rewrite Hq1. cbn [nth_error option_map]. now rewrite Hv0.
  - unfold convert_url. rewrite Hstrip2 by reflexivity. rewrite eqb_app_nonempty.
    unfold extract_video_id, py_index, py_split.
    rewrite (contains_app_l "youtube.com/watch?v=" "https://m.youtube.com/watch?v=" v eq_refl).
    rewrite split_mobile, split_none by exact Hnomatch_v. cbn [nth_error option_map append].
    rewrite Hamp1. cbn [nth_error option_map]. now rewrite Hv0.
  - unfold convert_url.
    rewrite (strip_nospace ("https://www.youtube.com/watch?v=" ++ v ++ "&download=1")).
    2: { rewrite !UrlFacts.str_forall_app, Hsp. reflexivity. }
    rewrite eqb_app_nonempty.
    unfold extract_video_id, py_index, py_split.
    rewrite (contains_app_l "youtube.com/watch?v=" "https://www.youtube.com/watch?v=" (v ++ "&download=1") eq_refl).
    rewrite split_standard, split_seg by (apply no_match_v_download; exact Heq).
    rewrite split_none by reflexivity. cbn [nth_error option_map append].
    rewrite split_seg by (apply no_match_single; exact Hamp).
    rewrite split_download_tail. cbn [nth_error option_map append].
    now rewrite Hv0.
  - unfold convert_url. rewrite Hstrip2 by reflexivity. rewrite eqb_app_nonempty.
    unfold extract_video_id.
    rewrite Hcw, Hcb by reflexivity. reflexivity.
Qed.

Lemma convert_url_round_trip_witness :
  "dQw4w9WgXcQ" <> "" /\ UrlFacts.str_forall id_char "dQw4w9WgXcQ" = true /\
  (let shown := ConvShow (result_text "dQw4w9WgXcQ") in
   convert_url ("https://www.youtube.com/watch?v=" ++ "dQw4w9WgXcQ") = shown /\
   convert_url ("https://youtu.be/" ++ "dQw4w9WgXcQ") = shown /\
   convert_url ("https://m.youtube.com/watch?v=" ++ "dQw4w9WgXcQ") = shown /\
   convert_url ("https://www.youtube.com/watch?v=" ++ "dQw4w9WgXcQ" ++ "&download=1") = shown /\
   convert_url ("https://www.youtube.com/embed/" ++ "dQw4w9WgXcQ") = ConvError "Invalid YouTube URL").
Proof.
  assert (H1 : "dQw4w9WgXcQ" <> "") by discriminate.
  assert (H2 : UrlFacts.str_forall id_char "dQw4w9WgXcQ" = true) by reflexivity.
  split; [exact H1|]. split; [exact H2|].
  exact (convert_url_round_trip "dQw4w9WgXcQ" H1 H2).
Defined.

End ConverterFacts.

Module FormatFacts.
Import Download Formats.

Definition desc (a b : FormatInfo) : Prop := (fi_height b <= fi_height a)%Z.

Definition at_height (h : Z) (x : FormatInfo) : bool := (fi_height x =? h)%Z.

Lemma insert_desc_sorted : forall x l, Sorted desc l -> Sorted desc (insert_desc x l).
Proof.
  intros x; induction l as [|y r IH]; intros H; cbn [insert_desc].
  - repeat constructor.
  - destruct (Z.leb_spec (fi_height y) (fi_height x)) as [Hle|Hlt].
    + constructor; [exact H | constructor; exact Hle].
    + apply Sorted_inv in H as [Hr Hh]. constructor; [now apply IH|].
      destruct r as [|z r']; cbn [insert_desc].
      * constructor. unfold desc. lia.
      * destruct (Z.leb_spec (fi_height z) (fi_height x)); constructor.
        -- unfold desc. lia.
        -- now apply HdRel_inv in Hh.
Qed.

Lemma sort_desc_sorted : forall l, Sorted desc (sort_desc l).
Proof. induction l as [|x l IH]; [constructor | now apply insert_desc_sorted]. Qed.

Lemma filter_insert_desc : forall h x l,
  filter (at_height h) (insert_desc x l) =
  if at_height h x then x :: filter (at_height h) l else filter (at_height h) l.
Proof.
  intros h x; induction l as [|y r IH]; cbn [insert_desc].
  - cbn [filter]. destruct (at_height h x); reflexivity.
  - destruct (Z.leb_spec (fi_height y) (fi_height x)) as [Hle|Hlt].
    + cbn [filter]. destruct (at_height h x); reflexivity.
    + cbn [filter]. rewrite IH.
      destruct (at_height h x) eqn:Ex, (at_height h y) eqn:Ey; try reflexivity.
      unfold at_height in Ex, Ey. apply Z.eqb_eq in Ex, Ey. lia.
Qed.

Lemma filter_sort_desc : forall h l, filter (at_height h) (sort_desc l) = filter (at_height h) l.
Proof.
  intros h; induction l as [|x l IH]; [reflexivity|].
  cbn [sort_desc fold_right]. fold (sort_desc l).
  rewrite filter_insert_desc, IH. cbn [filter]. reflexivity.
Qed.

Lemma in_sort_desc : forall x l, In x (sort_desc l) -> In x l.
Proof.
  intros x l H.
  assert (Hx : In x (filter (at_height (fi_height x)) (sort_desc l))).
  { apply filter_In. split; [exact H | apply Z.eqb_refl]. }
  rewrite filter_sort_desc in Hx. now apply filter_In in Hx as [Hx _].
Qed.

(** When [extract_info] returns a list of formats, [get_available_formats]
    returns the formats with a non-zero height and a non-empty extension,
    sorted by decreasing height; the formats of one height come in the
    order yt-dlp listed them, none lost or added. *)
Theorem available_formats_sorted_stable : forall extract_info url fs,
  extract_info url = POk (FVal fs) ->
  exists l, get_available_formats extract_info url = POk l /\
    Sorted (fun a b => (fi_height b <= fi_height a)%Z) l /\
    (forall h, filter (fun x => (fi_height x =? h)%Z) l =
               filter (fun x => (fi_height x =? h)%Z) (flat_map keep fs)) /\
    Forall (fun x => fi_height x <> 0%Z /\ fi_ext x <> "") l.
Proof.
  intros extract_info url fs E.
  exists (sort_desc (flat_map keep fs)). unfold get_available_formats. rewrite E.
  split; [reflexivity|]. split; [apply sort_desc_sorted|]. split.
  - intros h. exact (filter_sort_desc h (flat_map keep fs)).
  - apply Forall_forall. intros x Hx. apply in_sort_desc in Hx.
    apply in_flat_map in Hx as (f & _ & Hf). unfold keep in Hf.
    destruct (rf_height f) as [| |h], (rf_ext f) as [| |e]; try contradiction.
    destruct ((h =? 0)%Z) eqn:Eh; [contradiction|].
    destruct (String.eqb_spec e ""); [contradiction|].
    destruct Hf as [<-|[]]. cbn. split; [now apply Z.eqb_neq | assumption].
Qed.

Definition demo_formats : list RawFormat :=
  [mkRawFormat (FVal "18") (FVal 360%Z) (FVal 640%Z) (FVal "mp4") FNone (FVal "avc1") (FVal "mp4a") (FVal 30%Q);
   mkRawFormat (FVal "137") (FVal 1080%Z) (FVal 1920%Z) (FVal "mp4") FMissing (FVal "avc1") (FVal "none") (FVal 30%Q);
   mkRawFormat (FVal "140") FNone FMissing (FVal "m4a") FMissing (FVal "none") (FVal "mp4a") FMissing].

Lemma available_formats_sorted_stable_witness :
  (fun _ : string => POk (FVal demo_formats)) "https://youtu.be/a" = POk (FVal demo_formats) /\
  exists l, get_available_formats (fun _ => POk (FVal demo_formats)) "https://youtu.be/a" = POk l /\
    Sorted (fun a b => (fi_height b <= fi_height a)%Z) l /\
    (forall h, filter (fun x => (fi_height x =? h)%Z) l =
               filter (fun x => (fi_height x =? h)%Z) (flat_map keep demo_formats)) /\
    Forall (fun x => fi_height x <> 0%Z /\ fi_ext x <> "") l.
Proof.
  split; [reflexivity|].
  apply (available_formats_sorted_stable (fun _ => POk (FVal demo_formats)) "https://youtu.be/a"
           demo_formats). reflexivity.
Defined.

End FormatFacts.

Module HistoryViewFacts.
Import History HistoryView.

(** The entries the history view lists, newest first. *)
Definition shown_entries (filter_text : string) (history : list HistoryEntry) : list HistoryEntry :=
  filter (fun e => String.eqb filter_text "" || entry_matches filter_text e)
    (rev (last_n 50 history)).

Definition row_for (iso_date : string -> option string) (r : Row) (e : HistoryEntry) : Prop :=
  row_title r = display_title (h_title e) /\ row_quality r = h_quality e /\
  row_format r = h_format e /\ row_status r = h_status e /\
  iso_date (h_timestamp e) = Some (row_date r).

Lemma insert_rows_spec : forall iso_date ft es,
  let '(rows, ex) := insert_rows iso_date ft es in
  exists shown rest,
    filter (fun e => String.eqb ft "" || entry_matches ft e) es = shown ++ rest /\
    Forall2 (row_for iso_date) rows shown /\
    ((ex = None /\ rest = []) \/
     (exists e rest', rest = e :: rest' /\ iso_date (h_timestamp e) = None /\
        exists msg, ex = Some (ValueError msg))).
Proof.
  intros iso_date ft; induction es as [|e es IH].
  - exists [], []. split; [reflexivity|]. split; [constructor|]. now left.
  - cbn [insert_rows filter].
    destruct (String.eqb ft "" || entry_matches ft e) eqn:Es.
    + assert (Hk : negb (String.eqb ft "") && negb (entry_matches ft e) = false).
      { rewrite <- negb_orb, Es. reflexivity. }
      rewrite Hk.
      destruct (iso_date (h_timestamp e)) as [date|] eqn:Ed.
      * destruct (insert_rows iso_date ft es) as [rows ex].
        destruct IH as (shown & rest & Hf & Hr & Hx).
        exists (e :: shown), rest. split; [now rewrite Hf|]. split; [|exact Hx].
        constructor; [|exact Hr]. unfold row_for. cbn. now repeat split.
      * exists [], (e :: filter (fun e => String.eqb ft "" || entry_matches ft e) es).
        split; [reflexivity|]. split; [constructor|]. right.
        exists e, (filter (fun e => String.eqb ft "" || entry_matches ft e) es).
        split; [reflexivity|]. split; [exact Ed|]. eexists. reflexivity.
    + assert (Hk : negb (String.eqb ft "") && negb (entry_matches ft e) = true).
      { rewrite <- negb_orb, Es. reflexivity. }
      rewrite Hk. exact IH.
Qed.

(** [refresh_history] shows at most 50 rows: the newest entries first,
    taken from the last 50 of the history and kept by the filter, each row
    carrying its entry's fields.  A timestamp that [fromisoformat] rejects
    stops the refresh with a [ValueError]: the rows before it stay, none
    after it is shown.  With no filter text every one of the last 50
    entries is selected. *)
Theorem refresh_history_rows : forall iso_date query history,
  let '(rows, ex) := refresh_history iso_date query history in
  List.length rows <= 50 /\
  exists shown rest,
    shown_entries (filter_text_of query) history = shown ++ rest /\
    Forall2 (row_for iso_date) rows shown /\
    ((ex = None /\ rest = []) \/
     (exists e rest', rest = e :: rest' /\ iso_date (h_timestamp e) = None /\
        exists msg, ex = Some (ValueError msg))) /\
    ((query = None \/ query = Some "") ->
       shown_entries (filter_text_of query) history = rev (last_n 50 history)).
Proof.
  intros iso_date query history. unfold refresh_history.
  pose proof (insert_rows_spec iso_date (filter_text_of query) (rev (last_n 50 history))) as H.
  destruct (insert_rows iso_date (filter_text_of query) (rev (last_n 50 history))) as [rows ex].
  destruct H as (shown & rest & Hf & Hr & Hx).
  split.
  - rewrite (Forall2_length Hr).
    assert (Hl : List.length (shown ++ rest) <= 50).
    { rewrite <- Hf. etransitivity; [apply filter_length_le|].
      rewrite length_rev. unfold last_n. rewrite length_skipn. lia. }
    rewrite length_app in Hl. lia.
  - exists shown, rest. split; [exact Hf|]. split; [exact Hr|]. split; [exact Hx|].
    intros [-> | ->]; unfold shown_entries; cbn [filter_text_of py_lower String.eqb orb];
      apply forallb_filter_id, forallb_forall; reflexivity.
Qed.

End HistoryViewFacts.

Module BatchTabFacts.
Import History Batch BatchTab.

Definition cb_of (env : Env) : Callback :=
  match dl env with DlOk => CbDownloaded | DlRaise _ => CbFailed end.

Definition entry_of (quality format_type : string) (p : VideoInfo * Env) : HistoryEntry :=
  let '(info, env) := p in
  mkEntry (webpage_url info) (title info) quality format_type
    (match dl env with DlOk => "completed" | DlRaise _ => "failed" end) (ts env).

(** The log line a callback gives when it runs after the worker is done,
    with [title] holding [t] and [e] unbound. *)
Definition late_line (t : string) (env : Env) : LogLine :=
  match dl env with DlOk => LogInfo ("Downloaded: " ++ t) | DlRaise _ => LogNameError end.

(** The log line of an item whose callback runs before the worker moves on. *)
Definition prompt_line (p : VideoInfo * Env) : LogLine :=
  let '(info, env) := p in
  match dl env with
  | DlOk => LogInfo ("Downloaded: " ++ title info)
  | DlRaise m => LogError ("Failed: " ++ title info ++ " (" ++ m ++ ")")
  end.

(** The worker runs the whole batch, then the main loop runs the queue. *)
Definition late_trace (envs : list Env) (fin : Env) : list BEvent :=
  flat_map (fun env => [EWorker env; EWorker env]) envs ++ [EWorker fin] ++
  repeat EMain (List.length envs + 2).

(** Each callback runs as soon as it is queued. *)
Definition prompt_trace (envs : list Env) (fin : Env) : list BEvent :=
  flat_map (fun env => [EWorker env; EMain; EWorker env]) envs ++ [EWorker fin; EMain; EMain].

Lemma add_ok : forall io s u t q f st stamp,
  exists s', add_to_history io s u t q f st stamp = POk s' /\
    download_history s' = download_history s ++ [mkEntry u t q f st stamp].
Proof.
  intros io s u t q f st stamp. unfold add_to_history, save_download_history.
  destruct io; cbn; eexists; split; reflexivity.
Qed.

Lemma last_cons_default : forall {A} (x : A) l d, last (x :: l) d = last l x.
Proof.
  intros A x l; revert x; induction l as [|y l IH]; intros x d; [reflexivity|].
  change (last (x :: y :: l) d) with (last (y :: l) d). now rewrite !IH.
Qed.

Lemma brun_app : forall b t1 t2, brun b (t1 ++ t2) = brun (brun b t1) t2.
Proof. intros. unfold brun. apply fold_left_app. Qed.

Lemma late_worker : forall rest envs b pre,
  List.length rest = List.length envs ->
  b_items b = pre ++ rest -> b_pc b = BItem (List.length pre) -> b_e b = None ->
  let b' := brun b (flat_map (fun env => [EWorker env; EWorker env]) envs) in
  b_items b' = b_items b /\ b_quality b' = b_quality b /\ b_format b' = b_format b /\
  b_pc b' = BItem (List.length pre + List.length rest) /\
  b_title b' = last (map title rest) (b_title b) /\ b_e b' = None /\
  b_queue b' = b_queue b ++ map cb_of envs /\ b_log b' = b_log b /\
  b_btn b' = b_btn b /\ b_label b' = b_label b /\
  download_history (b_store b') =
    download_history (b_store b) ++ map (entry_of (b_quality b) (b_format b)) (combine rest envs).
Proof.
  induction rest as [|x rest IH]; intros envs b pre Hl Hi Hp He.
  - destruct envs; [|discriminate]. cbn. rewrite Nat.add_0_r, !app_nil_r.
    repeat split; assumption.
  - destruct envs as [|env envs]; [discriminate|]. injection Hl as Hl.
    destruct b as [items q f pc url t e queue log btn label store].
    cbn [b_items b_pc b_e] in Hi, Hp, He. subst items pc e.
    assert (Hn : nth_error (pre ++ x :: rest) (List.length pre) = Some x).
    { rewrite nth_error_app2, Nat.sub_diag by lia. reflexivity. }
    change (brun (mkBState (pre ++ x :: rest) q f (BItem (List.length pre)) url t None queue
                    log btn label store)
               (flat_map (fun env => [EWorker env; EWorker env]) (env :: envs)))
      with (brun (worker_step env (worker_step env
              (mkBState (pre ++ x :: rest) q f (BItem (List.length pre)) url t None queue
                 log btn label store)))
           (flat_map (fun env => [EWorker env; EWorker env]) envs)).
    set (st := if dl env then "completed" else "failed").
    destruct (add_ok (io env) store (webpage_url x) (title x) q f
                (match dl env with DlOk => "completed" | DlRaise _ => "failed" end) (ts env))
      as (s' & Hadd & Hh).
    assert (Hw : exists b2, worker_step env (worker_step env
              (mkBState (pre ++ x :: rest) q f (BItem (List.length pre)) url t None queue
                 log btn label store)) = b2 /\
              b2 = mkBState (pre ++ x :: rest) q f (BItem (S (List.length pre)))
                     (webpage_url x) (title x) None (queue ++ [cb_of env]) log btn label s').
    { eexists; split; [reflexivity|]. unfold worker_step at 2. cbn [b_pc b_items].
      rewrite Hn. unfold cb_of. destruct (dl env) as [|m]; cbn; rewrite Hadd; reflexivity. }
    destruct Hw as (b2 & -> & ->).
    specialize (IH envs (mkBState (pre ++ x :: rest) q f (BItem (S (List.length pre)))
                     (webpage_url x) (title x) None (queue ++ [cb_of env]) log btn label s')
                  (pre ++ [x]) Hl).
    cbn [b_items b_pc b_e b_quality b_format b_title b_queue b_log b_btn b_label b_store] in *.
    rewrite <- app_assoc in IH. rewrite length_app in IH. cbn [List.length] in IH.
    destruct (IH eq_refl ltac:(f_equal; lia) eq_refl)
      as (H1 & H2 & H3 & H4 & H5 & H6 & H7 & H8 & H9 & H10 & H11).
    repeat split; try assumption.
    + rewrite H4. f_equal. cbn. lia.
    + rewrite H5. cbn [map]. now rewrite last_cons_default.
    + rewrite H7, <- app_assoc. reflexivity.
    + rewrite H11, Hh, <- app_assoc. reflexivity.
Qed.

Lemma late_mains : forall envs tail b,
  b_queue b = map cb_of envs ++ tail -> b_e b = None ->
  let b' := brun b (repeat EMain (List.length envs)) in
  b_queue b' = tail /\ b_log b' = b_log b ++ map (late_line (b_title b)) envs /\
  b_btn b' = b_btn b /\ b_label b' = b_label b /\ b_title b' = b_title b /\ b_e b' = None /\
  b_store b' = b_store b.
Proof.
  induction envs as [|env envs IH]; intros tail b Hq He.
  - cbn. rewrite app_nil_r. now repeat split.
  - change (brun b (repeat EMain (List.length (env :: envs))))
      with (brun (main_step b) (repeat EMain (List.length envs))).
    destruct b as [items q f pc url t e queue log btn label store].
    cbn [b_queue b_e] in Hq, He. subst queue e.
    unfold main_step. cbn [b_queue map app].
    specialize (IH tail (mkBState items q f pc url t None (map cb_of envs ++ tail)
      (match cb_of env with
       | CbDownloaded => log ++ [LogInfo ("Downloaded: " ++ t)]
       | CbFailed => log ++ [LogNameError]
       | _ => log end) btn label store) eq_refl eq_refl).
    unfold cb_of in *. cbn [b_queue b_log b_btn b_label b_title b_e b_store] in *.
    destruct (dl env) eqn:Ed; cbn in IH |- *;
      destruct IH as (H1 & H2 & H3 & H4 & H5 & H6 & H7);
      (repeat split; try assumption);
      rewrite H2, <- app_assoc; cbn; unfold late_line; now rewrite Ed.
Qed.

Lemma prompt_worker : forall rest envs b pre,
  List.length rest = List.length envs ->
  b_items b = pre ++ rest -> b_pc b = BItem (List.length pre) -> b_e b = None ->
  b_queue b = [] ->
  let b' := brun b (flat_map (fun env => [EWorker env; EMain; EWorker env]) envs) in
  b_pc b' = BItem (List.length pre + List.length rest) /\ b_e b' = None /\ b_queue b' = [] /\
  b_log b' = b_log b ++ map prompt_line (combine rest envs) /\
  b_btn b' = b_btn b /\ b_label b' = b_label b /\ b_items b' = b_items b /\
  download_history (b_store b') =
    download_history (b_store b) ++ map (entry_of (b_quality b) (b_format b)) (combine rest envs).
Proof.
  induction rest as [|x rest IH]; intros envs b pre Hl Hi Hp He Hq.
  - destruct envs; [|discriminate]. cbn. rewrite Nat.add_0_r, !app_nil_r.
    repeat split; assumption.
  - destruct envs as [|env envs]; [discriminate|]. injection Hl as Hl.
    destruct b as [items q f pc url t e queue log btn label store].
    cbn [b_items b_pc b_e b_queue] in Hi, Hp, He, Hq. subst items pc e queue.
    assert (Hn : nth_error (pre ++ x :: rest) (List.length pre) = Some x).
    { rewrite nth_error_app2, Nat.sub_diag by lia. reflexivity. }
    destruct (add_ok (io env) store (webpage_url x) (title x) q f
                (match dl env with DlOk => "completed" | DlRaise _ => "failed" end) (ts env))
      as (s' & Hadd & Hh).
    change (brun (mkBState (pre ++ x :: rest) q f (BItem (List.length pre)) url t None []
                    log btn label store)
               (flat_map (fun env => [EWorker env; EMain; EWorker env]) (env :: envs)))
      with (brun (worker_step env (main_step (worker_step env
              (mkBState (pre ++ x :: rest) q f (BItem (List.length pre)) url t None []
                 log btn label store))))
           (flat_map (fun env => [EWorker env; EMain; EWorker env]) envs)).
    assert (Hw : worker_step env (main_step (worker_step env
              (mkBState (pre ++ x :: rest) q f (BItem (List.length pre)) url t None []
                 log btn label store))) =
              mkBState (pre ++ x :: rest) q f (BItem (S (List.length pre)))
                (webpage_url x) (title x) None [] (log ++ [prompt_line (x, env)]) btn label s').
    { unfold worker_step at 2. cbn [b_pc b_items]. rewrite Hn.
      unfold prompt_line. destruct (dl env) as [|m]; cbn; rewrite Hadd; reflexivity. }
    rewrite Hw.
    specialize (IH envs (mkBState (pre ++ x :: rest) q f (BItem (S (List.length pre)))
                (webpage_url x) (title x) None [] (log ++ [prompt_line (x, env)]) btn label s')
                  (pre ++ [x]) Hl).
    cbn [b_items b_pc b_e b_quality b_format b_queue b_log b_btn b_label b_store] in *.
    rewrite <- app_assoc in IH. rewrite length_app in IH. cbn [List.length] in IH.
    destruct (IH eq_refl ltac:(f_equal; lia) eq_refl eq_refl)
      as (H1 & H2 & H3 & H4 & H5 & H6 & H7 & H8).
    repeat split; try assumption.
    + rewrite H1. f_equal. cbn. lia.
    + rewrite H4, <- app_assoc. reflexivity.
    + rewrite H8, Hh, <- app_assoc. reflexivity.
Qed.

(** The log of the batch tab depends on when Tk runs the queued lambdas,
    which read [title] and [e] when they run.  If the worker finishes the
    batch before the main loop runs them, every "Downloaded" line names
    the last video of the batch and every failure callback raises
    [NameError] (its [e] was unbound at the end of the [except]) instead of
    logging; if each runs as soon as it is queued, every line names its own
    video and error.  In both cases the history gets one entry per video,
    in order, with the video's own URL and title, and the button is
    enabled again at the end. *)
Theorem batch_tab_log_depends_on_schedule : forall items quality_label format_label store envs fin b0,
  start_batch_download items quality_label format_label store = Some b0 ->
  List.length envs = List.length items ->
  let entries := map (entry_of (Presets.label_to_quality quality_label)
                                (Presets.label_to_format format_label)) (combine items envs) in
  (let b := brun b0 (late_trace envs fin) in
     b_log b = map (late_line (last (map title items) "")) envs /\ b_btn b = true /\
     download_history (b_store b) = download_history store ++ entries) /\
  (let b := brun b0 (prompt_trace envs fin) in
     b_log b = map prompt_line (combine items envs) /\ b_btn b = true /\
     download_history (b_store b) = download_history store ++ entries).
Proof.
  intros items ql fl store envs fin b0 Hs Hl entries.
  destruct items as [|i0 items']; [discriminate|].
  injection Hs as <-. set (items := i0 :: items') in *.
  split.
  - unfold late_trace. rewrite !brun_app.
    destruct (late_worker items envs
                (mkBState items (Presets.label_to_quality ql) (Presets.label_to_format fl)
                   (BItem 0) "" "" None [] [] false "Starting batch download..." store) []
                (eq_sym Hl) eq_refl eq_refl eq_refl)
      as (H1 & H2 & H3 & H4 & H5 & H6 & H7 & H8 & H9 & H10 & H11).
    cbn [b_items b_quality b_format b_title b_queue b_log b_btn b_label b_store List.length]
      in *.
    set (bw := brun _ (flat_map _ envs)) in *.
    assert (Hfin : exists b1, brun bw [EWorker fin] = b1 /\
              b_queue b1 = map cb_of envs ++ [CbEnableButton; CbCompleteLabel] /\
              b_e b1 = None /\ b_title b1 = b_title bw /\ b_log b1 = [] /\
              b_store b1 = b_store bw).
    { destruct bw as [items1 q1 f1 pc1 url1 t1 e1 queue1 log1 btn1 label1 store1].
      cbn [b_items b_pc b_e b_queue b_log] in *. subst.
      eexists; split; [reflexivity|]. cbn. unfold worker_step. cbn [b_pc b_items].
      rewrite (proj2 (nth_error_None _ _)) by (cbn; lia). cbn. now repeat split. }
    destruct Hfin as (b1 & -> & Hq1 & He1 & Ht1 & Hlog1 & Hst1).
    rewrite repeat_app, brun_app.
    destruct (late_mains envs [CbEnableButton; CbCompleteLabel] b1 Hq1 He1)
      as (M1 & M2 & M3 & M4 & M5 & M6 & M7).
    set (b2 := brun b1 (repeat EMain (List.length envs))) in *.
    destruct b2 as [items2 q2 f2 pc2 url2 t2 e2 queue2 log2 btn2 label2 store2].
    cbn [b_queue b_log b_btn b_store] in M1, M2, M3, M7. subst queue2.
    cbn. repeat split.
    + rewrite M2, Hlog1, Ht1, H5. reflexivity.
    + rewrite M7, Hst1, H11. reflexivity.
  - unfold prompt_trace. rewrite !brun_app.
    destruct (prompt_worker items envs
                (mkBState items (Presets.label_to_quality ql) (Presets.label_to_format fl)
                   (BItem 0) "" "" None [] [] false "Starting batch download..." store) []
                (eq_sym Hl) eq_refl eq_refl eq_refl eq_refl)
      as (H1 & H2 & H3 & H4 & H5 & H6 & H7 & H8).
    cbn [b_items b_quality b_format b_queue b_log b_btn b_label b_store List.length] in *.
    set (bw := brun _ (flat_map _ envs)) in *.
    destruct bw as [items1 q1 f1 pc1 url1 t1 e1 queue1 log1 btn1 label1 store1].
    cbn [b_items b_pc b_e b_queue b_log b_btn b_store] in *. subst.
    cbn. unfold worker_step. cbn [b_pc b_items].
    rewrite (proj2 (nth_error_None _ _)) by (cbn; lia). cbn. repeat split; try assumption.
Qed.

Definition demo_video (t u : string) : VideoInfo := mkVideoInfo t 60 "" [] u "" 0.

Lemma batch_tab_log_depends_on_schedule_witness :
  let items := [demo_video "First" "https://youtu.be/a"; demo_video "Second" "https://youtu.be/b"] in
  let envs := [mkEnv (DlRaise "Download failed: HTTP Error 403") "t1" IoOk; mkEnv DlOk "t2" IoOk] in
  start_batch_download items "720p HD" "MP4 Video" (mkStore [] DiskMissing) =
    Some (mkBState items "720p" "mp4" (BItem 0) "" "" None [] [] false
            "Starting batch download..." (mkStore [] DiskMissing)) /\
  List.length envs = List.length items /\
  (let entries := map (entry_of (Presets.label_to_quality "720p HD")
                                 (Presets.label_to_format "MP4 Video")) (combine items envs) in
   (let b := brun (mkBState items "720p" "mp4" (BItem 0) "" "" None [] [] false
                    "Starting batch download..." (mkStore [] DiskMissing))
                  (late_trace envs (mkEnv DlOk "t3" IoOk)) in
      b_log b = map (late_line (last (map title items) "")) envs /\ b_btn b = true /\
      download_history (b_store b) = download_history (mkStore [] DiskMissing) ++ entries) /\
   (let b := brun (mkBState items "720p" "mp4" (BItem 0) "" "" None [] [] false
                    "Starting batch download..." (mkStore [] DiskMissing))
                  (prompt_trace envs (mkEnv DlOk "t3" IoOk)) in
      b_log b = map prompt_line (combine items envs) /\ b_btn b = true /\
      download_history (b_store b) = download_history (mkStore [] DiskMissing) ++ entries)).
Proof.
  intros items envs.
  assert (H1 : start_batch_download items "720p HD" "MP4 Video" (mkStore [] DiskMissing) =
    Some (mkBState items "720p" "mp4" (BItem 0) "" "" None [] [] false
            "Starting batch download..." (mkStore [] DiskMissing))) by reflexivity.
  assert (H2 : List.length envs = List.length items) by reflexivity.
  split; [exact H1|]. split; [exact H2|].
  exact (batch_tab_log_depends_on_schedule items "720p HD" "MP4 Video" (mkStore [] DiskMissing)
           envs (mkEnv DlOk "t3" IoOk) _ H1 H2).
Defined.

End BatchTabFacts.
